(** * Format detection of server.py ([detect_csv_format]) and its cache

    A shallow embedding of [detect_csv_format] and of the module-level
    dictionary [format_cache] of [server.py], together with the Python
    string operations the function calls ([str.strip], [str.lower],
    [str.split(',')], [readline] in universal-newline text mode). *)

From Stdlib Require Import NArith List Ascii String DecimalString.
From Stdlib Require Import Sorted.
From stdpp Require Import gmap strings list fin_maps.

Local Open Scope N_scope.

(** ** Python text *)

(** A Python [str] is a sequence of Unicode code points. *)
Abbreviation text := (list N).

(** The text of an ASCII literal of the source. *)
Definition py (s : string) : text :=
  List.map N_of_ascii (list_ascii_of_string s).

(** [str.isspace] for one code point: the whitespace table of CPython
    ([_PyUnicode_IsWhitespace]). *)
Definition is_space (c : N) : bool :=
  ((9 <=? c) && (c <=? 13)) || ((28 <=? c) && (c <=? 32))
  || (c =? 133) || (c =? 160) || (c =? 5760)
  || ((8192 <=? c) && (c <=? 8202))
  || (c =? 8232) || (c =? 8233) || (c =? 8239) || (c =? 8287)
  || (c =? 12288).

Fixpoint lstrip (s : text) : text :=
  match s with
  | [] => []
  | c :: rest => if is_space c then lstrip rest else s
  end.

Definition rstrip (s : text) : text := rev (lstrip (rev s)).

(** [s.strip()] *)
Definition strip (s : text) : text := rstrip (lstrip s).

(** [s.split(sep)] for a one-character separator: never the empty list,
    [''.split(',') == ['']]. *)
Fixpoint split (sep : N) (s : text) : list text :=
  match s with
  | [] => [[]]
  | c :: rest =>
      if c =? sep then [] :: split sep rest
      else match split sep rest with
           | [] => [[c]]
           | field :: fields => (c :: field) :: fields
           end
  end.

Definition comma : N := 44.
Definition LF : N := 10.
Definition CR : N := 13.

(** [f.readline()] on a file opened in text mode with the default
    [newline=None]: the line ends at the first ['\n'], ['\r'] or ['\r\n'],
    which is handed over as ['\n']; the end of the file also ends it. *)
Fixpoint readline (content : text) : text :=
  match content with
  | [] => []
  | c :: rest =>
      if (c =? LF) || (c =? CR) then [LF] else c :: readline rest
  end.

Definition is_ascii_upper (c : N) : bool := (65 <=? c) && (c <=? 90).

(** ** Exceptions, the process state and the file system *)

(** What a Python call does: it returns a value or raises an exception
    (here carrying its message, [str(e)]). *)
Inductive outcome (A : Type) : Type :=
  | Ok (a : A)
  | Raise (e : text).
Arguments Ok {A} a.
Arguments Raise {A} e.

(** The state a call of the detector can touch: the module-level
    dictionary [format_cache], and two traces of its effects on the world:
    the paths handed to [open], in order, and the lines written by
    [print]. *)
Record state : Type := mkState {
  format_cache : gmap text text;
  opened : list text;
  stdout : list text
}.

(** [format_cache = {}] at import time, nothing opened, nothing printed. *)
Definition initial_state : state :=
  {| format_cache := ∅; opened := []; stdout := [] |}.

(** The disk at the time of a call: for a path, either the text of the file
    as [open(filepath, 'r', encoding='utf-8', errors='ignore')] decodes it,
    or the exception that opening or reading it raises. *)
Definition filesystem : Type := text -> outcome text.

(** Statements run in a state and end with a value or an exception; the
    state reached is kept in both cases. *)
Definition M (A : Type) : Type := state -> outcome A * state.

Definition ret {A : Type} (a : A) : M A := fun st => (Ok a, st).

Definition bind {A B : Type} (m : M A) (k : A -> M B) : M B :=
  fun st =>
    match m st with
    | (Ok a, st') => k a st'
    | (Raise e, st') => (Raise e, st')
    end.

(** [try: body / except Exception as e: handler] *)
Definition try_except {A : Type} (body : M A) (handler : text -> M A) : M A :=
  fun st =>
    match body st with
    | (Ok a, st') => (Ok a, st')
    | (Raise e, st') => handler e st'
    end.

Declare Scope py_scope.
Delimit Scope py_scope with py.
Notation "'let*' x ':=' m 'in' k" := (bind m (fun x => k))
  (at level 10, x name, m at level 100, k at level 200) : py_scope.

(** [filepath in format_cache] and [format_cache[filepath]] in one step. *)
Definition cache_get (filepath : text) : M (option text) :=
  fun st => (Ok (format_cache st !! filepath), st).

(** [format_cache[filepath] = label] *)
Definition cache_set (filepath label : text) : M unit :=
  fun st =>
    (Ok tt, {| format_cache := <[filepath := label]> (format_cache st);
               opened := opened st;
               stdout := stdout st |}).

(** [with open(filepath, ...) as f: f.readline()] *)
Definition open_readline (fs : filesystem) (filepath : text) : M text :=
  fun st =>
    let st' := {| format_cache := format_cache st;
                  opened := opened st ++ [filepath];
                  stdout := stdout st |} in
    match fs filepath with
    | Ok content => (Ok (readline content), st')
    | Raise e => (Raise e, st')
    end.

(** *** Standard output

    [print] encodes the line for [sys.stdout] before it writes anything.
    Standard output is taken to be UTF-8 with strict error handling, as it
    is in a UTF-8 locale: every string can be encoded but one with a
    surrogate code point (U+D800 to U+DFFF) in it, such as the file names
    [os.walk] hands over for names that are not UTF-8. *)

Definition is_surrogate (c : N) : bool := (55296 <=? c) && (c <=? 57343).

(** How many surrogates a text begins with. *)
Fixpoint leading_surrogates (s : text) : N :=
  match s with
  | [] => 0
  | c :: rest => if is_surrogate c then 1 + leading_surrogates rest else 0
  end.

(** The first run of surrogates of a text, if it has one: where it starts
    (counted from [pos]), its first code point and its length. *)
Fixpoint first_surrogates (pos : N) (s : text) : option (N * N * N) :=
  match s with
  | [] => None
  | c :: rest =>
      if is_surrogate c then Some (pos, c, 1 + leading_surrogates rest)
      else first_surrogates (pos + 1) rest
  end.

Definition hex_digit (d : N) : N := if d <? 10 then 48 + d else 87 + d.

(** Four lower-case hexadecimal digits, as in [\udcff]. *)
Definition hex4 (c : N) : text :=
  [hex_digit (c / 4096 mod 16); hex_digit (c / 256 mod 16);
   hex_digit (c / 16 mod 16); hex_digit (c mod 16)].

Definition decimal (n : N) : text :=
  py (NilEmpty.string_of_uint (N.to_uint n)).

(** [str(e)] of the [UnicodeEncodeError] that encoding [line] raises, if
    it raises. *)
Definition unicode_encode_error (line : text) : option text :=
  match first_surrogates 0 line with
  | None => None
  | Some (start, c, len) =>
      if len =? 1
      then Some (py "'utf-8' codec can't encode character '\u" ++ hex4 c
                 ++ py "' in position " ++ decimal start
                 ++ py ": surrogates not allowed")
      else Some (py "'utf-8' codec can't encode characters in position "
                 ++ decimal start ++ py "-" ++ decimal (start + len - 1)
                 ++ py ": surrogates not allowed")
  end.

(** [print(line)]: the line goes to standard output, or the encoder raises
    and nothing is written. *)
Definition print (line : text) : M unit :=
  fun st =>
    match unicode_encode_error line with
    | Some e => (Raise e, st)
    | None =>
        (Ok tt, {| format_cache := format_cache st;
                   opened := opened st;
                   stdout := stdout st ++ [line] |})
    end.

(** ASCII headers and disks used by the closed examples below. *)

(** A case table that leaves every code point outside ASCII as it is; the
    example headers are ASCII, where no table is consulted. *)
Definition ascii_only_lower : text -> N -> text -> text :=
  fun _ c _ => [c].

(** A disk whose every file has the given text. *)
Definition disk_of (content : text) : filesystem := fun _ => Ok content.

(** A disk on which no file can be opened. *)
Definition no_files : filesystem :=
  fun _ => Raise (py "[Errno 2] No such file or directory").

(** A path with a lone surrogate in it, and a disk on which no such name
    can even be handed to the operating system: [open] raises. *)
Definition surrogate_path : text := py "csv/" ++ [55296] ++ py ".csv".

Definition no_such_names : filesystem :=
  fun _ =>
    Raise (py "'utf-8' codec can't encode character '\ud800' in position 4: surrogates not allowed").

(** Files: a header line, then whatever rows follow. *)
Definition file_with (header rows : text) : text := header ++ [LF] ++ rows.

Definition eucworld_file : text :=
  file_with (py "timestamp,Extra,DateTime,speed") (py "0,1,2,3").

Definition darknessbot_file : text :=
  file_with (py "Date,Pitch,Battery level,Total mileage,Speed") (py "").

Definition wheellog_file : text :=
  file_with (py "date,time,speed,voltage") (py "2024-01-01,10:00:00,3,84").

Definition darknessbot_file_with_Extra_DateTime : text :=
  file_with (py "Date,Battery level,Pitch,Total mileage,Extra,DateTime")
    (py "").

Definition darknessbot_file_with_Time : text :=
  file_with (py "Date,Battery level,Pitch,Total mileage,Time") (py "").


Definition date_time_extra_file : text :=
  file_with (py "date,time,extra,voltage") (py "").

Definition ride : text := py "csv/ride.csv".
Definition other_ride : text := py "csv/2024/ride.csv".

(** ** More Python text: prefixes, suffixes, substrings, order *)

(** [s.startswith(prefix)] *)
Fixpoint startswith (s prefix : text) : bool :=
  match prefix, s with
  | [], _ => true
  | _ :: _, [] => false
  | p :: prefix', c :: s' => (c =? p) && startswith s' prefix'
  end.

(** [s.endswith(suffix)] *)
Definition endswith (s suffix : text) : bool :=
  startswith (rev s) (rev suffix).

(** [needle in s] for two strings: [needle] occurs in [s] as a substring. *)
Fixpoint contains (needle s : text) : bool :=
  startswith s needle
  || match s with
     | [] => false
     | _ :: rest => contains needle rest
     end.

(** The order of [str]: code point by code point, a proper prefix first. *)
Fixpoint text_compare (a b : text) : comparison :=
  match a, b with
  | [], [] => Eq
  | [], _ :: _ => Lt
  | _ :: _, [] => Gt
  | x :: a', y :: b' =>
      match x ?= y with
      | Eq => text_compare a' b'
      | c => c
      end
  end.

Definition slash : N := 47.

(** ** The routes that do not list *)

(** What [send_from_directory] does for the route: it builds the response
    that carries the file, or raises; the handler tells [FileNotFoundError]
    from every other exception. *)
Inductive send_outcome (R : Type) : Type :=
  | Sent (r : R)
  | FileNotFoundError (e : text)
  | OtherException (e : text).
Arguments Sent {R} r.
Arguments FileNotFoundError {R} e.
Arguments OtherException {R} e.

(** The answers of [get_csv_file]: the file response, or
    [jsonify({'error': error}), status]. *)
Inductive csv_response (R : Type) : Type :=
  | ServedFile (r : R)
  | JsonError (status : N) (error : text).
Arguments ServedFile {R} r.
Arguments JsonError {R} status error.

Definition get_csv_file {R : Type} (CSV_DIR : text)
    (send_from_directory : text -> text -> send_outcome R)
    (filename : text) : csv_response R :=
  if contains (py "..") filename || startswith filename (py "/")
  then JsonError 400 (py "Invalid filename")
  else
    match send_from_directory CSV_DIR filename with
    | Sent r => ServedFile r
    | FileNotFoundError _ => JsonError 404 (py "File not found")
    | OtherException e => JsonError 500 e
    end.

(** [bool(s)] for a string. *)
Definition truthy (s : text) : bool :=
  match s with
  | [] => false
  | _ :: _ => true
  end.

(** The [after_request] hook. The response object belongs to the web
    framework: the hook reads its [content_type] ([None] or a string) and
    assigns one header. *)
Definition add_no_cache_headers {Response : Type}
    (content_type : Response -> option text)
    (set_header : text -> text -> Response -> Response)
    (response : Response) : Response :=
  match content_type response with
  | Some ct =>
      if truthy ct
         && existsb (fun t => contains t ct)
              [py "javascript"; py "css"; py "html"]
      then set_header (py "Cache-Control") (py "no-cache") response
      else response
  | None => response
  end.

(** ** The listing route: what it takes from the operating system *)

(** [e] raised or [v] returned by a library call, as a statement. *)
Definition lift {A : Type} (o : outcome A) : M A := fun st => (o, st).

(** [for x in items: body], with the local variable the body updates
    passed along. *)
Fixpoint for_each {A B : Type} (items : list A) (body : A -> B -> M B)
    (acc : B) : M B :=
  match items with
  | [] => ret acc
  | x :: rest => bind (body x acc) (fun acc' => for_each rest body acc')
  end.

(** What the route is run on: the type of timestamps (floats, left open),
    [CSV_DIR], and the functions of [os.path] and [datetime] it calls
    ([datetime.fromtimestamp(t).strftime('%Y-%m-%d %H:%M:%S')] for the last
    one); they depend on the operating system, the working directory and
    the time zone, and the last two can raise. *)
Record platform : Type := mkPlatform {
  mtime : Type;
  CSV_DIR : text;
  os_path_join : text -> text -> text;
  os_path_relpath : text -> text -> outcome text;
  os_path_dirname : text -> text;
  strftime_local : mtime -> outcome text
}.

Section Platform.

Variable os : platform.

(** The disk at the time of a request: which paths exist, what [os.walk]
    yields from a directory ([(root, dirs, filenames)] triples), what
    [os.stat] gives for a path ([st_size] and [st_mtime]) or raises, and
    the text of the files. *)
Record disk : Type := mkDisk {
  os_path_exists : text -> bool;
  os_walk : text -> list (text * list text * list text);
  os_stat : text -> outcome (N * mtime os);
  file_text : filesystem
}.

(** One dictionary of the list [files]. *)
Record file_entry : Type := mkEntry {
  entry_name : text;
  entry_path : text;
  entry_folder : text;
  entry_size : N;
  entry_modified : mtime os;
  entry_modified_date : text;
  entry_format : text
}.

(** The three answers of [list_csv_files]:
    [jsonify({'error': 'CSV directory not found', 'files': []})],
    [jsonify({'success': True, 'count': count, 'files': files})], and
    [jsonify({'success': False, 'error': error, 'files': []}), 500]. *)
Inductive listing : Type :=
  | DirectoryNotFound
  | Listed (count : nat) (files : list file_entry)
  | ListingFailed (error : text).

(** [(x['folder'], x['name']) <= (y['folder'], y['name'])], the order of
    the sort key. *)
Definition key_le (x y : file_entry) : bool :=
  match text_compare (entry_folder x) (entry_folder y) with
  | Lt => true
  | Gt => false
  | Eq =>
      match text_compare (entry_name x) (entry_name y) with
      | Gt => false
      | _ => true
      end
  end.

(** [files.sort(key=...)] is a stable sort, and a stable sort has one
    result: the one of insertion from the right. *)
Fixpoint insert_entry (x : file_entry) (sorted : list file_entry)
    : list file_entry :=
  match sorted with
  | [] => [x]
  | y :: rest =>
      if key_le x y then x :: y :: rest else y :: insert_entry x rest
  end.

Fixpoint sort_files (files : list file_entry) : list file_entry :=
  match files with
  | [] => []
  | x :: rest => insert_entry x (sort_files rest)
  end.

(** The file names the two loops keep, in the order of the walk, and the
    paths made of them. *)
Definition csv_names (d : disk) : list text :=
  flat_map (fun triple : text * list text * list text =>
              List.filter (fun filename => endswith filename (py ".csv"))
                (snd triple))
    (os_walk d (CSV_DIR os)).

Definition csv_paths (d : disk) : list text :=
  flat_map (fun triple : text * list text * list text =>
              List.map (os_path_join os (fst (fst triple)))
                (List.filter (fun filename => endswith filename (py ".csv"))
                   (snd triple)))
    (os_walk d (CSV_DIR os)).

End Platform.

Arguments os_path_exists {os} d _.
Arguments os_walk {os} d _.
Arguments os_stat {os} d _.
Arguments file_text {os} d _.
Arguments entry_name {os} _.
Arguments entry_path {os} _.
Arguments entry_folder {os} _.
Arguments entry_size {os} _.
Arguments entry_modified {os} _.
Arguments entry_modified_date {os} _.
Arguments entry_format {os} _.
Arguments DirectoryNotFound {os}.
Arguments Listed {os} count files.
Arguments ListingFailed {os} error.
Arguments key_le {os} x y.
Arguments insert_entry {os} x sorted.
Arguments sort_files {os} files.
Arguments csv_names {os} d.
Arguments csv_paths {os} d.

(** What every listed entry has: a name that ends in [.csv] and a folder
    that is not the empty string. *)
Definition listed_well {os : platform} (e : file_entry os) : Prop :=
  endswith (entry_name e) (py ".csv") = true ∧ entry_folder e ≠ [].

(** Calls of the detector on one disk. *)
Definition calls_on (fs : filesystem) (paths : list text)
    : list (filesystem * text) :=
  List.map (fun filepath => (fs, filepath)) paths.

(** A line without a line terminator in it. *)
Definition no_newline (h : text) : Prop :=
  Forall (fun c => c ≠ LF ∧ c ≠ CR) h.

(** What can follow the header line in a file: nothing, or a line
    terminator (['\n'], ['\r'], ['\r\n']) and anything after it. *)
Definition ends_line (tail : text) : Prop :=
  tail = [] ∨ exists c rest, (c = LF ∨ c = CR) ∧ tail = c :: rest.

(** How often a path occurs in a trace. *)
Definition occurrences (filepath : text) (trace : list text) : nat :=
  length (List.filter (fun q => bool_decide (q = filepath)) trace).

(** The path is in the trace of opened files only if it is cached, and at
    most once. *)
Definition opened_once (filepath : text) (st : state) : Prop :=
  (format_cache st !! filepath = None -> filepath ∉ opened st)
  ∧ (occurrences filepath (opened st) <= 1)%nat.

(** Two states in which every call on the disk [fs] gets the same answer. *)
Definition agree (detect : filesystem -> text -> M text) (fs : filesystem)
    (st st' : state) : Prop :=
  forall filepath, fst (detect fs filepath st) = fst (detect fs filepath st').

(** The entries and the count of an answer of the listing route (nothing
    for the two answers without files). *)
Definition files_of {os : platform} (answer : outcome (listing os))
    : list (file_entry os) :=
  match answer with
  | Ok (Listed _ files) => files
  | _ => []
  end.

Definition count_of {os : platform} (answer : outcome (listing os)) : nat :=
  match answer with
  | Ok (Listed count _) => count
  | _ => 0%nat
  end.

(** A platform and a disk for the closed examples: POSIX paths, [csv] as
    the directory, two [.csv] files and a text file in it, one [.csv] file
    in a subdirectory; [csv/b.csv] cannot be opened. *)
Definition posix_join (a b : text) : text :=
  if startswith b (py "/") then b
  else if negb (truthy a) || endswith a (py "/") then a ++ b
  else a ++ py "/" ++ b.

Fixpoint posix_dirname (p : text) : text :=
  match p with
  | [] => []
  | c :: rest =>
      if contains (py "/") rest then c :: posix_dirname rest else []
  end.

Definition relpath_below (p start : text) : outcome text :=
  Ok (drop (S (length start)) p).

Definition example_platform : platform :=
  {| mtime := N;
     CSV_DIR := py "csv";
     os_path_join := posix_join;
     os_path_relpath := relpath_below;
     os_path_dirname := posix_dirname;
     strftime_local := fun _ => Ok (py "2024-01-01 10:00:00") |}.

Definition example_disk : disk example_platform :=
  mkDisk example_platform
    (fun _ => true)
    (fun _ =>
       [ (py "csv", [py "2024"], [py "b.csv"; py "notes.txt"; py "a.csv"]);
         (py "csv/2024", [], [py "ride.csv"]) ])
    (fun _ => Ok (100, 1700000000))
    (fun filepath =>
       if bool_decide (filepath = py "csv/b.csv")
       then Raise (py "[Errno 13] Permission denied")
       else if bool_decide (filepath = py "csv/a.csv") then Ok wheellog_file
       else Ok eucworld_file).

(** [sep.join(fields)] for a one-character separator. *)
Fixpoint join (sep : N) (fields : list text) : text :=
  match fields with
  | [] => []
  | [field] => field
  | field :: rest => field ++ sep :: join sep rest
  end.

(** A field of a header line: no comma and no line terminator in it. *)
Definition plain_field (field : text) : Prop :=
  Forall (fun c => c ≠ comma ∧ c ≠ LF ∧ c ≠ CR) field.

(** [g] on the last element of a list. *)
Fixpoint map_last {A : Type} (g : A -> A) (l : list A) : list A :=
  match l with
  | [] => []
  | [x] => [g x]
  | x :: rest => x :: map_last g rest
  end.

(** A closed decidable proposition, settled by evaluation. *)
Ltac holds := apply (bool_decide_unpack _); vm_compute; exact I.

Section Detector.

(** [str.lower] outside ASCII is the Unicode database of the interpreter
    (full case mapping, and the final-sigma rule that looks at the
    neighbours): it is a parameter here, given the text before the code
    point, the code point, and the text after it. *)
Variable unicode_lower : text -> N -> text -> text.

Definition lower_at (before : text) (c : N) (after : text) : text :=
  if is_ascii_upper c then [c + 32]
  else if c <? 128 then [c]
  else unicode_lower before c after.

Fixpoint lower_from (before_rev : text) (s : text) : text :=
  match s with
  | [] => []
  | c :: rest =>
      lower_at (rev before_rev) c rest ++ lower_from (c :: before_rev) rest
  end.

(** [s.lower()] *)
Definition lower (s : text) : text := lower_from [] s.

(** [[col.strip().lower() for col in header_line.split(',')]] *)
Definition columns (header_line : text) : list text :=
  List.map (fun col => lower (strip col)) (split comma header_line).

(** [[col.strip() for col in header_line.split(',')]] *)
Definition columns_original (header_line : text) : list text :=
  List.map (fun col => strip col) (split comma header_line).

Local Open Scope py_scope.

Definition detect_csv_format (fs : filesystem) (filepath : text) : M text :=
  let* cached := cache_get filepath in
  match cached with
  | Some label => ret label
  | None =>
      try_except
        (let* line := open_readline fs filepath in
         let header_line := strip line in
         let columns_set : gset text := list_to_set (columns header_line) in
         if bool_decide (py "extra" ∈ columns_set)
            && bool_decide (py "datetime" ∈ columns_set)
         then
           let* _ := cache_set filepath (py "eucworld") in
           ret (py "eucworld")
         else
           let columns_original_set : gset text :=
             list_to_set (columns_original header_line) in
           if bool_decide (py "Date" ∈ columns_original_set)
              && bool_decide (py "Battery level" ∈ columns_original_set)
              && bool_decide (py "Pitch" ∈ columns_original_set)
              && bool_decide (py "Total mileage" ∈ columns_original_set)
           then
             let* _ := cache_set filepath (py "darknessbot") in
             ret (py "darknessbot")
           else
             if bool_decide (py "date" ∈ columns_set)
                && bool_decide (py "time" ∈ columns_set)
                && negb (bool_decide (py "extra" ∈ columns_set))
             then
               let* _ := cache_set filepath (py "wheellog") in
               ret (py "wheellog")
             else
               let* _ := cache_set filepath (py "unknown") in
               ret (py "unknown"))
        (fun e =>
           let* _ := print (py "[SERVER] Format detection error for "
                            ++ filepath ++ py ": " ++ e) in
           ret (py "unknown"))
  end.

(** The life of the process as the detector sees it: a sequence of calls,
    each with the disk as it is at that time (files may change, appear or
    vanish between two calls). *)
Fixpoint run (calls : list (filesystem * text)) (st : state) : state :=
  match calls with
  | [] => st
  | (fs, filepath) :: later => run later (snd (detect_csv_format fs filepath st))
  end.

(** *** The signatures of the three rules *)

(** The trimmed, lowercased fields include [extra] and [datetime]. *)
Definition eucworld_rule (header_line : text) : Prop :=
  py "extra" ∈ columns header_line ∧ py "datetime" ∈ columns header_line.

(** The trimmed fields include the four tokens in exactly this case. *)
Definition darknessbot_rule (header_line : text) : Prop :=
  py "Date" ∈ columns_original header_line
  ∧ py "Battery level" ∈ columns_original header_line
  ∧ py "Pitch" ∈ columns_original header_line
  ∧ py "Total mileage" ∈ columns_original header_line.

(** The trimmed, lowercased fields include [date] and [time], not [extra]. *)
Definition wheellog_rule (header_line : text) : Prop :=
  py "date" ∈ columns header_line
  ∧ py "time" ∈ columns header_line
  ∧ py "extra" ∉ columns header_line.

(** The four strings the docstring of [detect_csv_format] lists. *)
Definition is_label (l : text) : Prop :=
  l = py "eucworld" ∨ l = py "wheellog" ∨ l = py "darknessbot"
  ∨ l = py "unknown".

(** The label lines 52 to 75 pick for a header line, cut out of
    [detect_csv_format] (same tests, same order) to name it in statements;
    [detect_read] below ties it to the function. *)
Definition classify (header_line : text) : text :=
  let columns_set : gset text := list_to_set (columns header_line) in
  if bool_decide (py "extra" ∈ columns_set)
     && bool_decide (py "datetime" ∈ columns_set)
  then py "eucworld"
  else
    let columns_original_set : gset text :=
      list_to_set (columns_original header_line) in
    if bool_decide (py "Date" ∈ columns_original_set)
       && bool_decide (py "Battery level" ∈ columns_original_set)
       && bool_decide (py "Pitch" ∈ columns_original_set)
       && bool_decide (py "Total mileage" ∈ columns_original_set)
    then py "darknessbot"
    else
      if bool_decide (py "date" ∈ columns_set)
         && bool_decide (py "time" ∈ columns_set)
         && negb (bool_decide (py "extra" ∈ columns_set))
      then py "wheellog"
      else py "unknown".

(** The state after a first classification of [filepath] as [label]. *)
Definition after_read (filepath label : text) (st : state) : state :=
  {| format_cache := <[filepath := label]> (format_cache st);
     opened := opened st ++ [filepath];
     stdout := stdout st |}.

(** The line the handler prints when reading [filepath] raised [e]. *)
Definition error_line (filepath e : text) : text :=
  py "[SERVER] Format detection error for " ++ filepath ++ py ": " ++ e.

(** What a call gives when reading [filepath] raised [e]: [unknown], or
    the exception of [print] when the line cannot be printed. *)
Definition error_answer (filepath e : text) : outcome text :=
  match unicode_encode_error (error_line filepath e) with
  | Some printing => Raise printing
  | None => Ok (py "unknown")
  end.

(** The state after a failed attempt to read [filepath]. *)
Definition after_error (filepath e : text) (st : state) : state :=
  {| format_cache := format_cache st;
     opened := opened st ++ [filepath];
     stdout :=
       match unicode_encode_error (error_line filepath e) with
       | Some _ => stdout st
       | None => stdout st ++ [error_line filepath e]
       end |}.

(** ** The listing route *)

(** The body of the inner loop, for one file name of one directory. *)
Definition list_file {os : platform} (d : disk os) (root filename : text)
    (files : list (file_entry os)) : M (list (file_entry os)) :=
  if endswith filename (py ".csv") then
    let filepath := os_path_join os root filename in
    let* stat := lift (os_stat d filepath) in
    let* rel_path := lift (os_path_relpath os filepath (CSV_DIR os)) in
    let* csv_format := detect_csv_format (file_text d) filepath in
    let* modified_date := lift (strftime_local os (snd stat)) in
    ret (files ++ [ {| entry_name := filename;
                       entry_path := rel_path;
                       entry_folder :=
                         if truthy (os_path_dirname os rel_path)
                         then os_path_dirname os rel_path
                         else py "/";
                       entry_size := fst stat;
                       entry_modified := snd stat;
                       entry_modified_date := modified_date;
                       entry_format := csv_format |} ])
  else ret files.

(** The body of the outer loop, for one triple of the walk. *)
Definition list_directory {os : platform} (d : disk os)
    (triple : text * list text * list text)
    (files : list (file_entry os)) : M (list (file_entry os)) :=
  for_each (snd triple) (list_file d (fst (fst triple))) files.

Definition list_csv_files {os : platform} (d : disk os) : M (listing os) :=
  try_except
    (if negb (os_path_exists d (CSV_DIR os)) then ret DirectoryNotFound
     else
       let* files := for_each (os_walk d (CSV_DIR os)) (list_directory d) [] in
       let files := sort_files files in
       ret (Listed (length files) files))
    (fun e => ret (ListingFailed e)).

(** Every value stored in the cache is one of the four labels. *)
Definition cache_wf (st : state) : Prop :=
  forall filepath label,
    format_cache st !! filepath = Some label -> is_label label.

(** What a loop body of the listing does, for every state and every list
    gathered so far: it calls the detector on some of the paths [paths x],
    on the disk [fs], and nothing else; when it does not raise it has
    called it on all of them, and has appended entries with the names
    [names x]. *)
Definition loop_body_spec {os : platform} {A : Type}
    (body : A -> list (file_entry os) -> M (list (file_entry os)))
    (fs : filesystem) (paths names : A -> list text) : Prop :=
  forall x files st,
  exists called,
    snd (body x files st) = run (calls_on fs called) st
    ∧ (forall filepath, filepath ∈ called -> filepath ∈ paths x)
    ∧ forall result,
        fst (body x files st) = Ok result ->
        called = paths x
        ∧ exists new,
            result = files ++ new
            ∧ List.map entry_name new = names x
            ∧ Forall listed_well new
            ∧ (cache_wf st ->
               Forall (fun e => is_label (entry_format e)) new).

(** Case analysis on the tests of [classify], in their order. *)
Ltac cascade in_set_eq :=
  unfold classify, eucworld_rule, darknessbot_rule, wheellog_rule in *;
  cbv zeta; rewrite !in_set_eq;
  repeat (case_bool_decide; cbn [andb negb]; try tauto);
  try reflexivity.

(** ** The three ways through [detect_csv_format] *)

Lemma detect_hit (fs : filesystem) (filepath label : text) (st : state) :
  format_cache st !! filepath = Some label ->
  detect_csv_format fs filepath st = (Ok label, st).
Proof.
  intros Hhit. unfold detect_csv_format, bind, cache_get.
  rewrite Hhit. reflexivity.
Qed.

Lemma detect_error (fs : filesystem) (filepath e : text) (st : state) :
  format_cache st !! filepath = None ->
  fs filepath = Raise e ->
  detect_csv_format fs filepath st
  = (error_answer filepath e, after_error filepath e st).
Proof.
  intros Hmiss Hfs.
  unfold detect_csv_format, bind, cache_get, try_except, open_readline.
  rewrite Hmiss, Hfs. unfold print, error_answer, after_error.
  fold (error_line filepath e).
  destruct (unicode_encode_error (error_line filepath e)); reflexivity.
Qed.

Lemma detect_read (fs : filesystem) (filepath content : text) (st : state) :
  format_cache st !! filepath = None ->
  fs filepath = Ok content ->
  detect_csv_format fs filepath st
  = (Ok (classify (strip (readline content))),
     after_read filepath (classify (strip (readline content))) st).
Proof.
  intros Hmiss Hfs.
  unfold detect_csv_format, bind, cache_get, try_except, open_readline.
  rewrite Hmiss, Hfs. unfold classify, after_read, cache_set, ret.
  cbv zeta.
  repeat match goal with
         | |- context [if ?b then _ else _] => destruct b
         end; reflexivity.
Qed.

(** ** The rule cascade *)

(** [x in set(l)] is [x in l]. *)
Lemma in_set (x : text) (l : list text) :
  bool_decide (x ∈ (list_to_set l : gset text)) = bool_decide (x ∈ l).
Proof. apply bool_decide_ext, elem_of_list_to_set. Qed.

Lemma classify_eucworld (h : text) :
  eucworld_rule h -> classify h = py "eucworld".
Proof. intros He. cascade in_set. Qed.

Lemma classify_darknessbot (h : text) :
  ¬ eucworld_rule h -> darknessbot_rule h -> classify h = py "darknessbot".
Proof. intros He Hd. cascade in_set. Qed.

Lemma classify_wheellog (h : text) :
  ¬ darknessbot_rule h -> wheellog_rule h -> classify h = py "wheellog".
Proof. intros Hd Hw. cascade in_set. Qed.

Lemma classify_unknown (h : text) :
  ¬ eucworld_rule h -> ¬ darknessbot_rule h -> ¬ wheellog_rule h ->
  classify h = py "unknown".
Proof. intros He Hd Hw. cascade in_set. Qed.

Lemma classify_is_label (h : text) : is_label (classify h).
Proof. unfold is_label. cascade in_set. Qed.

Lemma classify_darknessbot_inv (h : text) :
  classify h = py "darknessbot" -> darknessbot_rule h.
Proof.
  intros Hc. revert Hc. cascade in_set; intros Hc; vm_compute in Hc; discriminate.
Qed.

(** ** Lowercasing and the two views of the header *)

Lemma columns_lower_original (h : text) :
  columns h = List.map lower (columns_original h).
Proof. unfold columns, columns_original. rewrite List.map_map. reflexivity. Qed.

(** ** The cache along a run *)

Lemma unknown_is_label : is_label (py "unknown").
Proof. unfold is_label. auto. Qed.

(** The three ways through a call, and what each gives. *)
Lemma detect_cases (fs : filesystem) (filepath : text) (st : state) :
  (exists label,
      format_cache st !! filepath = Some label
      ∧ detect_csv_format fs filepath st = (Ok label, st))
  ∨ (exists content,
        format_cache st !! filepath = None ∧ fs filepath = Ok content
        ∧ detect_csv_format fs filepath st
          = (Ok (classify (strip (readline content))),
             after_read filepath (classify (strip (readline content))) st))
  ∨ (exists e,
        format_cache st !! filepath = None ∧ fs filepath = Raise e
        ∧ detect_csv_format fs filepath st
          = (error_answer filepath e, after_error filepath e st)).
Proof.
  destruct (format_cache st !! filepath) as [label|] eqn:Hc.
  - left. exists label. split; [reflexivity | apply detect_hit, Hc].
  - destruct (fs filepath) as [content|e] eqn:Hfs.
    + right; left. exists content. auto using detect_read.
    + right; right. exists e. auto using detect_error.
Qed.

(** A call never removes or changes an entry of the cache. *)
Lemma detect_keeps (fs : filesystem) (filepath : text) (st : state)
    (other label : text) :
  format_cache st !! other = Some label ->
  format_cache (snd (detect_csv_format fs filepath st)) !! other = Some label.
Proof.
  intros Hother.
  destruct (detect_cases fs filepath st)
    as [(l & _ & ->) | [(c & Hmiss & _ & ->) | (e & _ & _ & ->)]];
    simpl; try assumption.
  rewrite lookup_insert_ne; [assumption | congruence].
Qed.

Lemma run_keeps (calls : list (filesystem * text)) (st : state)
    (filepath label : text) :
  format_cache st !! filepath = Some label ->
  format_cache (run calls st) !! filepath = Some label.
Proof.
  revert st. induction calls as [| [fs other] later IH]; intros st Hc.
  - exact Hc.
  - simpl. apply IH, detect_keeps, Hc.
Qed.

Lemma detect_wf (fs : filesystem) (filepath : text) (st : state) :
  cache_wf st -> cache_wf (snd (detect_csv_format fs filepath st)).
Proof.
  intros Hwf.
  destruct (detect_cases fs filepath st)
    as [(l & _ & ->) | [(c & _ & _ & ->) | (e & _ & _ & ->)]];
    simpl; try assumption.
  intros other label. unfold after_read; simpl.
  rewrite lookup_insert. case_decide.
  - intros [= <-]. apply classify_is_label.
  - apply Hwf.
Qed.

Lemma run_wf (calls : list (filesystem * text)) (st : state) :
  cache_wf st -> cache_wf (run calls st).
Proof.
  revert st. induction calls as [| [fs other] later IH]; intros st Hwf.
  - exact Hwf.
  - simpl. apply IH, detect_wf, Hwf.
Qed.

Lemma initial_wf : cache_wf initial_state.
Proof. intros filepath label. simpl. rewrite lookup_empty. discriminate. Qed.

(** ** Classification of a file read for the first time *)

(** C3: a readable, uncached file whose trimmed, lowercased header fields
    include both [extra] and [datetime] is labelled [eucworld], whatever
    its other columns; so is the header [timestamp,Extra,DateTime,speed]. *)
Theorem eucworld_first (fs : filesystem) (filepath content : text)
    (st : state) :
  format_cache st !! filepath = None ->
  fs filepath = Ok content ->
  (eucworld_rule (strip (readline content)) ->
   fst (detect_csv_format fs filepath st) = Ok (py "eucworld"))
  ∧ (strip (readline content) = py "timestamp,Extra,DateTime,speed" ->
     fst (detect_csv_format fs filepath st) = Ok (py "eucworld")).
Proof.
  intros Hmiss Hfs. rewrite (detect_read _ _ _ _ Hmiss Hfs). simpl. split.
  - intros He. f_equal. apply classify_eucworld, He.
  - intros ->. vm_compute. reflexivity.
Qed.

(** C1, as amended: a readable, uncached file whose trimmed header fields
    include [Date], [Battery level], [Pitch] and [Total mileage] in exactly
    this case is labelled [darknessbot] unless its trimmed, lowercased
    fields include both [extra] and [datetime], in which case the earlier
    rule labels it [eucworld]; and no header without a field [Date] in this
    exact case is labelled [darknessbot]. *)
Theorem darknessbot_after_eucworld (fs : filesystem)
    (filepath content : text) (st : state) :
  format_cache st !! filepath = None ->
  fs filepath = Ok content ->
  (darknessbot_rule (strip (readline content)) ->
   ¬ eucworld_rule (strip (readline content)) ->
   fst (detect_csv_format fs filepath st) = Ok (py "darknessbot"))
  ∧ (darknessbot_rule (strip (readline content)) ->
     eucworld_rule (strip (readline content)) ->
     fst (detect_csv_format fs filepath st) = Ok (py "eucworld"))
  ∧ (py "Date" ∉ columns_original (strip (readline content)) ->
     fst (detect_csv_format fs filepath st) ≠ Ok (py "darknessbot")).
Proof.
  intros Hmiss Hfs. rewrite (detect_read _ _ _ _ Hmiss Hfs). simpl.
  split; [| split].
  - intros Hd He. f_equal. apply classify_darknessbot; assumption.
  - intros _ He. f_equal. apply classify_eucworld, He.
  - intros Hno [= Hc]. apply classify_darknessbot_inv in Hc.
    apply Hno, Hc.
Qed.

(** C2, as amended: a readable, uncached file whose trimmed, lowercased
    header fields include [date] and [time] and not [extra] is labelled
    [wheellog] unless its trimmed fields include the four darknessbot
    tokens in their exact case, in which case the earlier rule labels it
    [darknessbot]. *)
Theorem wheellog_after_darknessbot (fs : filesystem)
    (filepath content : text) (st : state) :
  format_cache st !! filepath = None ->
  fs filepath = Ok content ->
  wheellog_rule (strip (readline content)) ->
  (¬ darknessbot_rule (strip (readline content)) ->
   fst (detect_csv_format fs filepath st) = Ok (py "wheellog"))
  ∧ (darknessbot_rule (strip (readline content)) ->
     fst (detect_csv_format fs filepath st) = Ok (py "darknessbot")).
Proof.
  intros Hmiss Hfs Hw. rewrite (detect_read _ _ _ _ Hmiss Hfs). simpl. split.
  - intros Hd. f_equal. apply classify_wheellog; assumption.
  - intros Hd. f_equal. apply classify_darknessbot; [| assumption].
    unfold eucworld_rule, wheellog_rule in *. tauto.
Qed.

(** C9: a readable, uncached file whose header matches none of the three
    rule signatures is labelled [unknown]; so are an empty file and the
    header [date,time,extra,voltage]. *)
Theorem unknown_otherwise (fs : filesystem) (filepath content : text)
    (st : state) :
  format_cache st !! filepath = None ->
  fs filepath = Ok content ->
  (¬ eucworld_rule (strip (readline content)) ->
   ¬ darknessbot_rule (strip (readline content)) ->
   ¬ wheellog_rule (strip (readline content)) ->
   fst (detect_csv_format fs filepath st) = Ok (py "unknown"))
  ∧ (content = [] ->
     fst (detect_csv_format fs filepath st) = Ok (py "unknown"))
  ∧ (strip (readline content) = py "date,time,extra,voltage" ->
     fst (detect_csv_format fs filepath st) = Ok (py "unknown")).
Proof.
  intros Hmiss Hfs. rewrite (detect_read _ _ _ _ Hmiss Hfs). simpl.
  split; [| split].
  - intros He Hd Hw. f_equal. apply classify_unknown; assumption.
  - intros ->. vm_compute. reflexivity.
  - intros ->. vm_compute. reflexivity.
Qed.

(** C10: two calls in succession on distinct uncached paths whose files
    are readable and have the same first line return the same label: the
    label is a function of the first line, not of the path. *)
Theorem label_from_first_line (fs1 fs2 : filesystem)
    (path1 path2 content1 content2 : text) (st : state) :
  path1 ≠ path2 ->
  format_cache st !! path1 = None ->
  format_cache st !! path2 = None ->
  fs1 path1 = Ok content1 ->
  fs2 path2 = Ok content2 ->
  readline content1 = readline content2 ->
  fst (detect_csv_format fs2 path2
         (snd (detect_csv_format fs1 path1 st)))
  = fst (detect_csv_format fs1 path1 st)
  ∧ fst (detect_csv_format fs1 path1 st)
    = Ok (classify (strip (readline content1))).
Proof.
  intros Hne Hm1 Hm2 Hf1 Hf2 Hline.
  rewrite (detect_read _ _ _ _ Hm1 Hf1). simpl.
  rewrite (detect_read fs2 path2 content2).
  - simpl. rewrite Hline. auto.
  - simpl. rewrite lookup_insert_ne; assumption.
  - assumption.
Qed.

(** ** The cache *)



(** C6: once a path is a key of the cache, every later call on it, after
    any number of calls on any paths and whatever the disk has become,
    returns the cached label, opens no file and leaves the state as it
    is. *)
Theorem cached_forever (calls : list (filesystem * text)) (fs : filesystem)
    (filepath label : text) (st : state) :
  format_cache st !! filepath = Some label ->
  fst (detect_csv_format fs filepath (run calls st)) = Ok label
  ∧ opened (snd (detect_csv_format fs filepath (run calls st)))
    = opened (run calls st)
  ∧ snd (detect_csv_format fs filepath (run calls st)) = run calls st.
Proof.
  intros Hc.
  rewrite (detect_hit fs filepath label) by (apply run_keeps, Hc).
  auto.
Qed.

End Detector.

(** On ASCII text [lower] does not consult the Unicode table: the closed
    examples below, all ASCII, hold for every table. *)
Lemma lower_from_ascii (table1 table2 : text -> N -> text -> text)
    (before_rev s : text) :
  Forall (fun c => c < 128) s ->
  lower_from table1 before_rev s = lower_from table2 before_rev s.
Proof.
  intros Hs. revert before_rev.
  induction Hs as [| c rest Hc _ IH]; intros before_rev; simpl.
  - reflexivity.
  - rewrite IH. f_equal. unfold lower_at.
    destruct (is_ascii_upper c); [reflexivity |].
    apply N.ltb_lt in Hc. rewrite Hc. reflexivity.
Qed.

Lemma lower_ascii (table1 table2 : text -> N -> text -> text) (s : text) :
  Forall (fun c => c < 128) s -> lower table1 s = lower table2 s.
Proof. apply lower_from_ascii. Qed.

(** ** The theorems at concrete files *)

Lemma eucworld_first_witness :
  fst (detect_csv_format ascii_only_lower (disk_of eucworld_file) ride
         initial_state)
  = Ok (py "eucworld").
Proof.
  destruct (eucworld_first ascii_only_lower (disk_of eucworld_file) ride
              eucworld_file initial_state eq_refl eq_refl) as [Hrule _].
  apply Hrule. unfold eucworld_rule. holds.
Defined.

Lemma darknessbot_after_eucworld_witness :
  fst (detect_csv_format ascii_only_lower (disk_of darknessbot_file) ride
         initial_state)
  = Ok (py "darknessbot").
Proof.
  destruct (darknessbot_after_eucworld ascii_only_lower
              (disk_of darknessbot_file) ride darknessbot_file initial_state
              eq_refl eq_refl) as [Hrule _].
  apply Hrule.
  - unfold darknessbot_rule. holds.
  - unfold eucworld_rule. holds.
Defined.

(** The four darknessbot tokens in their exact case, with [Extra] and
    [DateTime] beside them: the file is labelled [eucworld], not
    [darknessbot]. *)
Lemma darknessbot_tokens_labelled_eucworld :
  format_cache initial_state !! ride = None
  ∧ disk_of darknessbot_file_with_Extra_DateTime ride
    = Ok darknessbot_file_with_Extra_DateTime
  ∧ darknessbot_rule (strip (readline darknessbot_file_with_Extra_DateTime))
  ∧ fst (detect_csv_format ascii_only_lower
           (disk_of darknessbot_file_with_Extra_DateTime) ride initial_state)
    = Ok (py "eucworld")
  ∧ fst (detect_csv_format ascii_only_lower
           (disk_of darknessbot_file_with_Extra_DateTime) ride initial_state)
    ≠ Ok (py "darknessbot").
Proof.
  split; [reflexivity | split; [reflexivity | split; [| split]]].
  - unfold darknessbot_rule. holds.
  - vm_compute. reflexivity.
  - vm_compute. discriminate.
Qed.

Lemma wheellog_after_darknessbot_witness :
  fst (detect_csv_format ascii_only_lower (disk_of wheellog_file) ride
         initial_state)
  = Ok (py "wheellog").
Proof.
  assert (Hw : wheellog_rule ascii_only_lower (strip (readline wheellog_file))).
  { unfold wheellog_rule. holds. }
  destruct (wheellog_after_darknessbot ascii_only_lower
              (disk_of wheellog_file) ride wheellog_file initial_state
              eq_refl eq_refl Hw) as [Hrule _].
  apply Hrule. unfold darknessbot_rule. holds.
Defined.

(** [date] (as [Date]) and [time] (as [Time]) without [extra], and the four
    darknessbot tokens: the file is labelled [darknessbot], not
    [wheellog]. *)
Lemma wheellog_fields_labelled_darknessbot :
  format_cache initial_state !! ride = None
  ∧ disk_of darknessbot_file_with_Time ride = Ok darknessbot_file_with_Time
  ∧ wheellog_rule ascii_only_lower
      (strip (readline darknessbot_file_with_Time))
  ∧ fst (detect_csv_format ascii_only_lower
           (disk_of darknessbot_file_with_Time) ride initial_state)
    = Ok (py "darknessbot")
  ∧ fst (detect_csv_format ascii_only_lower
           (disk_of darknessbot_file_with_Time) ride initial_state)
    ≠ Ok (py "wheellog").
Proof.
  split; [reflexivity | split; [reflexivity | split; [| split]]].
  - unfold wheellog_rule. holds.
  - vm_compute. reflexivity.
  - vm_compute. discriminate.
Qed.


Lemma unknown_otherwise_witness :
  fst (detect_csv_format ascii_only_lower (disk_of date_time_extra_file) ride
         initial_state)
  = Ok (py "unknown")
  ∧ fst (detect_csv_format ascii_only_lower (disk_of []) ride initial_state)
    = Ok (py "unknown").
Proof.
  split.
  - destruct (unknown_otherwise ascii_only_lower
                (disk_of date_time_extra_file) ride date_time_extra_file
                initial_state eq_refl eq_refl) as (Hrule & _ & _).
    apply Hrule.
    + unfold eucworld_rule. holds.
    + unfold darknessbot_rule. holds.
    + unfold wheellog_rule. holds.
  - destruct (unknown_otherwise ascii_only_lower (disk_of []) ride []
                initial_state eq_refl eq_refl) as (_ & Hempty & _).
    apply Hempty. reflexivity.
Defined.

Lemma label_from_first_line_witness :
  fst (detect_csv_format ascii_only_lower (disk_of wheellog_file) other_ride
         (snd (detect_csv_format ascii_only_lower
                 (disk_of (file_with (py "date,time,speed,voltage") (py "")))
                 ride initial_state)))
  = fst (detect_csv_format ascii_only_lower
           (disk_of (file_with (py "date,time,speed,voltage") (py "")))
           ride initial_state).
Proof.
  refine (proj1 (label_from_first_line ascii_only_lower
                   (disk_of (file_with (py "date,time,speed,voltage") (py "")))
                   (disk_of wheellog_file) ride other_ride
                   (file_with (py "date,time,speed,voltage") (py ""))
                   wheellog_file initial_state _ eq_refl eq_refl eq_refl
                   eq_refl eq_refl)).
  vm_compute. discriminate.
Defined.





(** C7 (the code at the failing input): the call on a path with a lone
    surrogate that cannot be opened. The handler of line 77 catches the
    exception of [open], and its own [print] of line 78 raises on the
    path: the call ends with that [UnicodeEncodeError] and returns no
    label, where the claim has it return [unknown]. Nothing is cached and
    nothing is printed. *)
Lemma print_in_handler_raises :
  format_cache initial_state !! surrogate_path = None
  ∧ (exists e, no_such_names surrogate_path = Raise e)
  ∧ fst (detect_csv_format ascii_only_lower no_such_names surrogate_path
           initial_state)
    = Raise (py "'utf-8' codec can't encode character '\ud800' in position 40: surrogates not allowed")
  ∧ fst (detect_csv_format ascii_only_lower no_such_names surrogate_path
           initial_state)
    ≠ Ok (py "unknown")
  ∧ format_cache (snd (detect_csv_format ascii_only_lower no_such_names
                         surrogate_path initial_state))
    = ∅
  ∧ stdout (snd (detect_csv_format ascii_only_lower no_such_names
                   surrogate_path initial_state))
    = [].
Proof.
  split; [reflexivity | split; [eexists; reflexivity |]].
  split; [vm_compute; reflexivity | split; [vm_compute; discriminate |]].
  split; [reflexivity | vm_compute; reflexivity].
Qed.

Lemma cached_forever_witness :
  fst (detect_csv_format ascii_only_lower (disk_of wheellog_file) ride
         (run ascii_only_lower
            [(no_files, ride); (disk_of wheellog_file, other_ride)]
            (snd (detect_csv_format ascii_only_lower (disk_of eucworld_file)
                    ride initial_state))))
  = Ok (py "eucworld").
Proof.
  apply (cached_forever ascii_only_lower
           [(no_files, ride); (disk_of wheellog_file, other_ride)]
           (disk_of wheellog_file) ride (py "eucworld")
           (snd (detect_csv_format ascii_only_lower (disk_of eucworld_file)
                   ride initial_state))).
  vm_compute. reflexivity.
Defined.

(** ** Text lemmas *)

Lemma space_not_comma (c : N) : is_space c = true -> (c =? comma) = false.
Proof.
  intros Hs. destruct (N.eqb_spec c comma) as [-> |]; [| reflexivity].
  vm_compute in Hs. discriminate.
Qed.

Lemma split_cons (sep : N) (s : text) :
  exists field fields, split sep s = field :: fields.
Proof.
  destruct s as [| c rest]; simpl; [eauto |].
  destruct (c =? sep); [eauto |].
  destruct (split sep rest); eauto.
Qed.

Lemma lstrip_app_space (s : text) (w : N) :
  is_space w = true ->
  lstrip (s ++ [w]) = [] ∧ lstrip s = []
  ∨ lstrip (s ++ [w]) = lstrip s ++ [w] ∧ lstrip s ≠ [].
Proof.
  intros Hw. induction s as [| c rest IH]; simpl.
  - rewrite Hw. auto.
  - destruct (is_space c); [exact IH |]. right. split; [reflexivity | discriminate].
Qed.

Lemma rstrip_app_space (s : text) (w : N) :
  is_space w = true -> rstrip (s ++ [w]) = rstrip s.
Proof.
  intros Hw. unfold rstrip. rewrite rev_app_distr. simpl. rewrite Hw.
  reflexivity.
Qed.

(** A trailing whitespace character, such as the line terminator that
    [readline] leaves, is gone after [strip]. *)
Lemma strip_app_space (s : text) (w : N) :
  is_space w = true -> strip (s ++ [w]) = strip s.
Proof.
  intros Hw. unfold strip.
  destruct (lstrip_app_space s w Hw) as [[-> ->] | [-> _]].
  - reflexivity.
  - apply rstrip_app_space, Hw.
Qed.

Lemma readline_to_eof (h : text) : no_newline h -> readline h = h.
Proof.
  induction 1 as [| c rest [Hlf Hcr] _ IH]; simpl; [reflexivity |].
  apply N.eqb_neq in Hlf, Hcr. rewrite Hlf, Hcr. simpl. f_equal. exact IH.
Qed.

Lemma readline_to_newline (h rows : text) (c : N) :
  no_newline h -> c = LF ∨ c = CR ->
  readline (h ++ c :: rows) = h ++ [LF].
Proof.
  intros Hh Hc. induction Hh as [| x rest [Hlf Hcr] _ IH]; simpl.
  - destruct Hc as [-> | ->]; reflexivity.
  - apply N.eqb_neq in Hlf, Hcr. rewrite Hlf, Hcr. simpl. f_equal. exact IH.
Qed.

Lemma strip_readline_header (h tail : text) :
  no_newline h -> ends_line tail -> strip (readline (h ++ tail)) = strip h.
Proof.
  intros Hh [-> | (c & rest & Hc & ->)].
  - rewrite app_nil_r, readline_to_eof; [reflexivity | exact Hh].
  - rewrite (readline_to_newline h rest c Hh Hc).
    apply strip_app_space. reflexivity.
Qed.

Lemma occurrences_app (filepath : text) (l1 l2 : list text) :
  occurrences filepath (l1 ++ l2)
  = (occurrences filepath l1 + occurrences filepath l2)%nat.
Proof. unfold occurrences. rewrite List.filter_app, length_app. reflexivity. Qed.

Lemma occurrences_absent (filepath : text) (l : list text) :
  filepath ∉ l -> occurrences filepath l = 0%nat.
Proof.
  unfold occurrences. induction l as [| q rest IH]; intros Hno; simpl.
  - reflexivity.
  - apply not_elem_of_cons in Hno as [Hne Hrest].
    rewrite bool_decide_eq_false_2 by congruence. apply IH, Hrest.
Qed.

Lemma startswith_app (needle rest : text) :
  startswith (needle ++ rest) needle = true.
Proof.
  induction needle as [| c needle IH]; simpl.
  - destruct rest; reflexivity.
  - rewrite N.eqb_refl. exact IH.
Qed.

Lemma contains_unfold (needle s : text) :
  contains needle s
  = startswith s needle
    || match s with
       | [] => false
       | _ :: rest => contains needle rest
       end.
Proof. destruct s; reflexivity. Qed.

Lemma contains_app (needle before after : text) :
  contains needle (before ++ needle ++ after) = true.
Proof.
  induction before as [| c before IH].
  - rewrite contains_unfold. simpl. rewrite startswith_app. reflexivity.
  - rewrite contains_unfold. simpl. rewrite IH. apply orb_true_r.
Qed.

(** The first field of a split is a prefix of the text. *)
Lemma split_head_prefix (sep : N) (s field : text) (fields : list text) :
  split sep s = field :: fields -> exists after, s = field ++ after.
Proof.
  revert field fields. induction s as [| c rest IH]; simpl; intros field fields.
  - intros [= <- <-]. exists []. reflexivity.
  - destruct (c =? sep).
    + intros [= <- <-]. exists (c :: rest). reflexivity.
    + destruct (split sep rest) as [| f fs] eqn:E.
      * intros [= <- <-]. destruct (split_cons sep rest) as (f & fs & Hf).
        congruence.
      * intros [= <- <-]. destruct (IH f fs eq_refl) as [after ->].
        exists after. reflexivity.
Qed.

(** Every field of a split occurs in the text. *)
Lemma split_field_occurs (sep : N) (s field : text) :
  field ∈ split sep s -> exists before after, s = before ++ field ++ after.
Proof.
  revert field. induction s as [| c rest IH]; simpl; intros field.
  - rewrite list_elem_of_singleton. intros ->. exists [], []. reflexivity.
  - destruct (c =? sep).
    + rewrite elem_of_cons. intros [-> | Hin].
      * exists [], (c :: rest). reflexivity.
      * destruct (IH field Hin) as (before & after & ->).
        exists (c :: before), after. reflexivity.
    + destruct (split sep rest) as [| f fs] eqn:E.
      * destruct (split_cons sep rest) as (f & fs & Hf). congruence.
      * rewrite elem_of_cons. intros [-> | Hin].
        -- destruct (split_head_prefix sep rest f fs E) as [after ->].
           exists [], after. reflexivity.
        -- destruct (IH field) as (before & after & ->).
           { rewrite elem_of_cons. auto. }
           exists (c :: before), after. reflexivity.
Qed.

(** ** The routes that do not list *)

(** X6: the guard of [get_csv_file] against directory traversal. A file
    name with a [..] component (indeed with two dots in a row anywhere, as
    in [ride..csv]) or with a leading slash is answered with status 400 and
    [Invalid filename], whatever [send_from_directory] would do: it is not
    called. *)
Theorem traversal_is_rejected {R : Type} (CSV_DIR : text)
    (send_from_directory : text -> text -> send_outcome R)
    (filename : text) :
  py ".." ∈ split slash filename
  ∨ (exists before after, filename = before ++ py ".." ++ after)
  ∨ startswith filename (py "/") = true ->
  get_csv_file CSV_DIR send_from_directory filename
  = JsonError 400 (py "Invalid filename").
Proof.
  intros Hbad. unfold get_csv_file.
  assert (Hguard : contains (py "..") filename
                   || startswith filename (py "/") = true).
  { destruct Hbad as [Hcomp | [(before & after & ->) | Habs]].
    - destruct (split_field_occurs _ _ _ Hcomp) as (before & after & ->).
      rewrite contains_app. reflexivity.
    - rewrite contains_app. reflexivity.
    - rewrite Habs. apply orb_true_r. }
  rewrite Hguard. reflexivity.
Qed.

(** X7: what [get_csv_file] serves. When it answers with a file, that is
    the response [send_from_directory] built for [CSV_DIR] and this very
    file name, and the name is relative and has no [..] component; status
    404 is given only for a [FileNotFoundError]. *)
Theorem served_file_is_inside {R : Type} (CSV_DIR : text)
    (send_from_directory : text -> text -> send_outcome R)
    (filename : text) :
  (forall r,
      get_csv_file CSV_DIR send_from_directory filename = ServedFile r ->
      send_from_directory CSV_DIR filename = Sent r
      ∧ (py ".." ∉ split slash filename)
      ∧ startswith filename (py "/") = false)
  ∧ (forall error,
        get_csv_file CSV_DIR send_from_directory filename
        = JsonError 404 error ->
        error = py "File not found"
        ∧ exists e, send_from_directory CSV_DIR filename = FileNotFoundError e).
Proof.
  unfold get_csv_file.
  destruct (contains (py "..") filename || startswith filename (py "/"))
    eqn:Hguard.
  - split; intros ? [=].
  - apply orb_false_elim in Hguard as [Hdots Habs].
    split.
    + intros r Hr. split; [| split; [| exact Habs]].
      * destruct (send_from_directory CSV_DIR filename); congruence.
      * intros Hcomp.
        destruct (split_field_occurs _ _ _ Hcomp) as (before & after & Heq).
        rewrite Heq, contains_app in Hdots. discriminate.
    + intros error Herr.
      destruct (send_from_directory CSV_DIR filename) as [r | e | e];
        [discriminate | | ].
      * injection Herr as <-. eauto.
      * injection Herr as Hst _. discriminate.
Qed.

(** X8: the [after_request] hook sets [Cache-Control: no-cache] on every
    response whose content type contains [javascript], [css] or [html]
    anywhere in it (so with any parameters after the type, and also for
    types such as [application/xhtml+xml]); a response without a content
    type, or with an empty one, is returned as it is. *)
Theorem no_cache_for_scripts_styles_pages {Response : Type}
    (content_type : Response -> option text)
    (set_header : text -> text -> Response -> Response)
    (response : Response) :
  (forall kind before after,
      kind ∈ [py "javascript"; py "css"; py "html"] ->
      content_type response = Some (before ++ kind ++ after) ->
      add_no_cache_headers content_type set_header response
      = set_header (py "Cache-Control") (py "no-cache") response)
  ∧ (content_type response = None ∨ content_type response = Some [] ->
     add_no_cache_headers content_type set_header response = response).
Proof.
  unfold add_no_cache_headers. split.
  - intros kind before after Hkind ->.
    assert (Htruthy : truthy (before ++ kind ++ after) = true).
    { destruct before; [| reflexivity].
      repeat (apply elem_of_cons in Hkind as [-> | Hkind]; [reflexivity |]).
      apply elem_of_nil in Hkind. contradiction. }
    rewrite Htruthy. simpl.
    repeat (apply elem_of_cons in Hkind as [-> | Hkind];
            [rewrite contains_app, ?orb_true_r; reflexivity |]).
    apply elem_of_nil in Hkind. contradiction.
  - intros [-> | ->]; reflexivity.
Qed.

(** ** Whitespace around the fields *)

Lemma split_no_sep (sep : N) (s : text) :
  Forall (fun c => c ≠ sep) s -> split sep s = [s].
Proof.
  induction 1 as [| c rest Hc _ IH]; simpl; [reflexivity |].
  apply N.eqb_neq in Hc. rewrite Hc, IH. reflexivity.
Qed.

Lemma split_app_sep (sep : N) (field s : text) :
  Forall (fun c => c ≠ sep) field ->
  split sep (field ++ sep :: s) = field :: split sep s.
Proof.
  induction 1 as [| c rest Hc _ IH]; simpl.
  - rewrite N.eqb_refl. reflexivity.
  - apply N.eqb_neq in Hc. rewrite Hc, IH. reflexivity.
Qed.

(** Splitting what [join] made gives the fields back. *)
Lemma split_join (sep : N) (fields : list text) :
  fields ≠ [] ->
  Forall (Forall (fun c => c ≠ sep)) fields ->
  split sep (join sep fields) = fields.
Proof.
  intros Hne Hfields. induction Hfields as [| field rest Hf Hrest IH].
  - contradiction.
  - destruct rest as [| next rest].
    + simpl. apply split_no_sep, Hf.
    + change (join sep (field :: next :: rest))
        with (field ++ sep :: join sep (next :: rest)).
      rewrite split_app_sep by exact Hf. f_equal. apply IH. discriminate.
Qed.

Lemma spaces_no_comma (ws : text) :
  Forall (fun c => is_space c = true) ws -> Forall (fun c => c ≠ comma) ws.
Proof.
  intros Hws. eapply Forall_impl; [exact Hws |].
  intros c Hs ->. vm_compute in Hs. discriminate.
Qed.

Lemma split_spaces_before (ws s : text) :
  Forall (fun c => is_space c = true) ws ->
  split comma (ws ++ s)
  = match split comma s with
    | [] => []
    | field :: fields => (ws ++ field) :: fields
    end.
Proof.
  intros Hws. destruct (split_cons comma s) as (field & fields & Hs).
  rewrite Hs. induction Hws as [| c rest Hc _ IH]; simpl.
  - exact Hs.
  - rewrite (space_not_comma c Hc), IH. reflexivity.
Qed.

Lemma map_last_cons {A : Type} (g : A -> A) (x : A) (l : list A) :
  l ≠ [] -> map_last g (x :: l) = x :: map_last g l.
Proof. destruct l; [contradiction | reflexivity]. Qed.

Lemma split_not_nil (sep : N) (s : text) : split sep s ≠ [].
Proof. destruct (split_cons sep s) as (f & fs & ->). discriminate. Qed.

Lemma split_spaces_after (ws s : text) :
  Forall (fun c => is_space c = true) ws ->
  split comma (s ++ ws) = map_last (fun field => field ++ ws) (split comma s).
Proof.
  intros Hws. induction s as [| c rest IH]; simpl.
  - apply split_no_sep, spaces_no_comma, Hws.
  - destruct (c =? comma).
    + rewrite IH, map_last_cons by apply split_not_nil. reflexivity.
    + rewrite IH. destruct (split comma rest) as [| f fs] eqn:E.
      * exfalso. exact (split_not_nil _ _ E).
      * destruct fs; reflexivity.
Qed.

Lemma lstrip_spaces (s : text) :
  exists ws, Forall (fun c => is_space c = true) ws ∧ s = ws ++ lstrip s.
Proof.
  induction s as [| c rest (ws & Hws & IH)]; simpl.
  - exists []. auto.
  - destruct (is_space c) eqn:Hc.
    + exists (c :: ws). split; [constructor; assumption |].
      simpl. f_equal. exact IH.
    + exists []. auto.
Qed.

Lemma rstrip_spaces (s : text) :
  exists ws, Forall (fun c => is_space c = true) ws ∧ s = rstrip s ++ ws.
Proof.
  destruct (lstrip_spaces (rev s)) as (ws & Hws & Hrev).
  exists (rev ws). split.
  - apply Forall_rev, Hws.
  - unfold rstrip. rewrite <- rev_app_distr, <- Hrev, rev_involutive.
    reflexivity.
Qed.

Lemma lstrip_app_spaces (ws s : text) :
  Forall (fun c => is_space c = true) ws -> lstrip (ws ++ s) = lstrip s.
Proof.
  induction 1 as [| c rest Hc _ IH]; simpl; [reflexivity |].
  rewrite Hc. exact IH.
Qed.

Lemma strip_spaces_before (ws s : text) :
  Forall (fun c => is_space c = true) ws -> strip (ws ++ s) = strip s.
Proof. intros Hws. unfold strip. rewrite lstrip_app_spaces by exact Hws. reflexivity. Qed.

Lemma strip_spaces_after (ws s : text) :
  Forall (fun c => is_space c = true) ws -> strip (s ++ ws) = strip s.
Proof.
  intros Hws. apply Forall_rev in Hws. rewrite <- (rev_involutive ws).
  induction Hws as [| c rest Hc _ IH]; simpl.
  - rewrite app_nil_r. reflexivity.
  - rewrite app_assoc, strip_app_space by exact Hc. exact IH.
Qed.

Lemma map_strip_last (ws : text) (l : list text) :
  Forall (fun c => is_space c = true) ws ->
  List.map strip (map_last (fun field => field ++ ws) l) = List.map strip l.
Proof.
  intros Hws. induction l as [| x rest IH]; [reflexivity |].
  destruct rest as [| y rest].
  - simpl. rewrite strip_spaces_after by exact Hws. reflexivity.
  - rewrite map_last_cons by discriminate.
    change (strip x :: List.map strip (map_last (fun field => field ++ ws)
                                         (y :: rest))
            = strip x :: List.map strip (y :: rest)).
    rewrite IH. reflexivity.
Qed.

(** The fields of a line are the same, once trimmed, whether the line
    itself was trimmed first or not. *)
Lemma columns_original_strip (s : text) :
  columns_original (strip s) = List.map strip (split comma s).
Proof.
  unfold columns_original.
  change (fun col : text => strip col) with strip.
  destruct (lstrip_spaces s) as (before & Hbefore & Hs).
  destruct (rstrip_spaces (lstrip s)) as (after & Hafter & Hl).
  fold (strip s) in Hl. rewrite Hl in Hs. clear Hl.
  remember (strip s) as core eqn:Hcore. clear Hcore.
  rewrite Hs. clear Hs.
  rewrite (split_spaces_before before _ Hbefore).
  rewrite (split_spaces_after after _ Hafter).
  rewrite <- (map_strip_last after (split comma core) Hafter).
  destruct (map_last (fun field => field ++ after) (split comma core))
    as [| field fields]; [reflexivity |].
  simpl. rewrite strip_spaces_before by exact Hbefore. reflexivity.
Qed.

Lemma plain_join (fields : list text) :
  Forall plain_field fields -> no_newline (join comma fields).
Proof.
  unfold no_newline. induction 1 as [| field rest Hf _ IH].
  - constructor.
  - assert (Hfield : Forall (fun c => c ≠ LF ∧ c ≠ CR) field).
    { eapply Forall_impl; [exact Hf |]. intros c (_ & H1 & H2). auto. }
    destruct rest as [| next rest]; [exact Hfield |].
    change (join comma (field :: next :: rest))
      with (field ++ comma :: join comma (next :: rest)).
    apply Forall_app. split; [exact Hfield |].
    constructor; [split; discriminate | exact IH].
Qed.

(** The fields the detector sees in a file whose first line is made of
    [fields] joined by commas: the fields, trimmed. *)
Lemma columns_of_joined (fields : list text) (tail : text) :
  fields ≠ [] -> Forall plain_field fields -> ends_line tail ->
  columns_original (strip (readline (join comma fields ++ tail)))
  = List.map strip fields.
Proof.
  intros Hne Hplain Htail.
  rewrite strip_readline_header by (auto using plain_join).
  rewrite columns_original_strip, split_join; [reflexivity | exact Hne |].
  eapply Forall_impl; [exact Hplain |]. intros field Hf.
  eapply Forall_impl; [exact Hf |]. intros c (Hc & _). exact Hc.
Qed.

(** ** More on the detector *)

Section Calls.

Variable unicode_lower : text -> N -> text -> text.

Local Abbreviation detect := (detect_csv_format unicode_lower).
Local Abbreviation label_of := (classify unicode_lower).

(** The answer of a call depends on the state only through the cache entry
    of its path. *)
Lemma detect_answer_cache (fs : filesystem) (filepath : text)
    (st st' : state) :
  format_cache st !! filepath = format_cache st' !! filepath ->
  fst (detect fs filepath st) = fst (detect fs filepath st').
Proof.
  intros Heq.
  destruct (detect_cases unicode_lower fs filepath st)
    as [(l & H1 & ->) | [(c & H1 & F1 & ->) | (e & H1 & F1 & ->)]];
    destruct (detect_cases unicode_lower fs filepath st')
      as [(l' & H2 & ->) | [(c' & H2 & F2 & ->) | (e' & H2 & F2 & ->)]];
    simpl; congruence.
Qed.

Lemma classify_ext (h1 h2 : text) :
  (forall x, x ∈ columns_original h1 <-> x ∈ columns_original h2) ->
  label_of h1 = label_of h2.
Proof.
  intros Horig.
  assert (Hlow : forall x, x ∈ columns unicode_lower h1
                           <-> x ∈ columns unicode_lower h2).
  { intros x. rewrite !columns_lower_original, !list_elem_of_In, !in_map_iff.
    split; intros (y & Hy & Hin); exists y; (split; [exact Hy |]);
      apply list_elem_of_In, Horig, list_elem_of_In, Hin. }
  unfold classify. cbv zeta. rewrite !in_set.
  rewrite (bool_decide_ext _ _ (Hlow (py "extra"))),
    (bool_decide_ext _ _ (Hlow (py "datetime"))),
    (bool_decide_ext _ _ (Hlow (py "date"))),
    (bool_decide_ext _ _ (Hlow (py "time"))),
    (bool_decide_ext _ _ (Horig (py "Date"))),
    (bool_decide_ext _ _ (Horig (py "Battery level"))),
    (bool_decide_ext _ _ (Horig (py "Pitch"))),
    (bool_decide_ext _ _ (Horig (py "Total mileage"))).
  reflexivity.
Qed.

(** X1: only the header line counts. Two uncached readable files that
    begin with the same line get the same label, whatever follows the
    line (nothing, or a line terminator of any of the three kinds and any
    rows), in any two states and on any two disks. *)
Theorem rows_do_not_matter (fs1 fs2 : filesystem)
    (path1 path2 h tail1 tail2 : text) (st1 st2 : state) :
  format_cache st1 !! path1 = None ->
  format_cache st2 !! path2 = None ->
  fs1 path1 = Ok (h ++ tail1) ->
  fs2 path2 = Ok (h ++ tail2) ->
  no_newline h -> ends_line tail1 -> ends_line tail2 ->
  fst (detect fs1 path1 st1) = fst (detect fs2 path2 st2).
Proof.
  intros Hm1 Hm2 Hf1 Hf2 Hh Ht1 Ht2.
  rewrite (detect_read _ _ _ _ _ Hm1 Hf1), (detect_read _ _ _ _ _ Hm2 Hf2).
  simpl. rewrite !strip_readline_header by assumption. reflexivity.
Qed.

(** X2: the order of the columns and their repetition do not count. Two
    uncached readable files whose header lines have the same set of
    trimmed fields get the same label. *)
Theorem column_order_does_not_matter (fs1 fs2 : filesystem)
    (path1 path2 content1 content2 : text) (st1 st2 : state) :
  format_cache st1 !! path1 = None ->
  format_cache st2 !! path2 = None ->
  fs1 path1 = Ok content1 ->
  fs2 path2 = Ok content2 ->
  (forall field,
      field ∈ columns_original (strip (readline content1))
      <-> field ∈ columns_original (strip (readline content2))) ->
  fst (detect fs1 path1 st1) = fst (detect fs2 path2 st2).
Proof.
  intros Hm1 Hm2 Hf1 Hf2 Hsame.
  rewrite (detect_read _ _ _ _ _ Hm1 Hf1), (detect_read _ _ _ _ _ Hm2 Hf2).
  simpl. f_equal. apply classify_ext, Hsame.
Qed.

Lemma detect_other_entry (fs : filesystem) (filepath other : text)
    (st : state) :
  other ≠ filepath ->
  format_cache (snd (detect fs filepath st)) !! other
  = format_cache st !! other.
Proof.
  intros Hne.
  destruct (detect_cases unicode_lower fs filepath st)
    as [(l & _ & ->) | [(c & _ & _ & ->) | (e & _ & _ & ->)]];
    simpl; try reflexivity.
  apply lookup_insert_ne. congruence.
Qed.

(** X15: whitespace around the fields does not count. Two uncached
    readable files whose first lines are fields joined by commas (no
    comma or line terminator inside a field) get the same label when the
    fields are the same once trimmed, however each field is padded with
    whitespace and whatever follows the first line. *)
Theorem padding_does_not_matter (fs1 fs2 : filesystem)
    (path1 path2 tail1 tail2 : text) (fields1 fields2 : list text)
    (st1 st2 : state) :
  format_cache st1 !! path1 = None ->
  format_cache st2 !! path2 = None ->
  fs1 path1 = Ok (join comma fields1 ++ tail1) ->
  fs2 path2 = Ok (join comma fields2 ++ tail2) ->
  fields1 ≠ [] -> fields2 ≠ [] ->
  Forall plain_field fields1 -> Forall plain_field fields2 ->
  ends_line tail1 -> ends_line tail2 ->
  List.map strip fields1 = List.map strip fields2 ->
  fst (detect fs1 path1 st1) = fst (detect fs2 path2 st2).
Proof.
  intros Hm1 Hm2 Hf1 Hf2 Hne1 Hne2 Hp1 Hp2 Ht1 Ht2 Hsame.
  rewrite (detect_read _ _ _ _ _ Hm1 Hf1), (detect_read _ _ _ _ _ Hm2 Hf2).
  simpl. f_equal. apply classify_ext. intros field.
  rewrite !columns_of_joined by assumption. rewrite Hsame. reflexivity.
Qed.

(** X3: a call touches nothing but its own path. It opens no file or the
    file it was called on; it leaves the cache entry of every other path as
    it is; and it prints only when the file cannot be read, and then one
    line. *)
Theorem detect_footprint (fs : filesystem) (filepath : text) (st : state) :
  (opened (snd (detect fs filepath st)) = opened st
   ∨ opened (snd (detect fs filepath st)) = opened st ++ [filepath])
  ∧ (forall other,
        other ≠ filepath ->
        format_cache (snd (detect fs filepath st)) !! other
        = format_cache st !! other)
  ∧ (stdout (snd (detect fs filepath st)) = stdout st
     ∨ exists e line,
         fs filepath = Raise e
         ∧ stdout (snd (detect fs filepath st)) = stdout st ++ [line]).
Proof.
  destruct (detect_cases unicode_lower fs filepath st)
    as [(l & Hhit & ->) | [(c & Hmiss & Hfs & ->) | (e & Hmiss & Hfs & ->)]];
    simpl.
  - auto.
  - split; [auto | split; [| auto]].
    intros other Hne. apply lookup_insert_ne. congruence.
  - split; [auto | split; [auto |]].
    destruct (unicode_encode_error (error_line filepath e)); [auto |].
    right. eauto.
Qed.


Lemma detect_answer_step (fs : filesystem) (filepath other : text)
    (st : state) :
  fst (detect fs filepath (snd (detect fs other st)))
  = fst (detect fs filepath st).
Proof.
  destruct (decide (other = filepath)) as [-> | Hne].
  - destruct (detect_cases unicode_lower fs filepath st)
      as [(l & Hhit & ->) | [(c & Hmiss & Hfs & ->) | (e & Hmiss & Hfs & ->)]];
      simpl.
    + rewrite (detect_hit _ _ _ l) by assumption. reflexivity.
    + rewrite (detect_hit _ _ _ (label_of (strip (readline c)))); [reflexivity |].
      simpl. apply lookup_insert_eq.
    + rewrite (detect_error _ _ _ e); [reflexivity | assumption ..].
  - apply detect_answer_cache, detect_other_entry. congruence.
Qed.

Lemma run_app (calls1 calls2 : list (filesystem * text)) (st : state) :
  run unicode_lower (calls1 ++ calls2) st
  = run unicode_lower calls2 (run unicode_lower calls1 st).
Proof.
  revert st. induction calls1 as [| [fs p] later IH]; intros st; simpl.
  - reflexivity.
  - apply IH.
Qed.

(** X4: on an unchanged disk the answer for a path never changes, cached
    or not, readable or not: whatever calls were made in between on that
    disk, the call returns what it would have returned before them. *)
Theorem same_disk_same_answer (fs : filesystem) (paths : list text)
    (filepath : text) (st : state) :
  fst (detect fs filepath (run unicode_lower (calls_on fs paths) st))
  = fst (detect fs filepath st).
Proof.
  revert st. induction paths as [| other later IH]; intros st; simpl.
  - reflexivity.
  - rewrite IH. apply detect_answer_step.
Qed.

Lemma run_answer (fs : filesystem) (paths : list text) (st : state)
    (filepath : text) :
  fst (detect fs filepath (run unicode_lower (calls_on fs paths) st))
  = fst (detect fs filepath st).
Proof.
  revert st. induction paths as [| other later IH]; intros st; simpl;
    [reflexivity |].
  rewrite IH. apply detect_answer_step.
Qed.

Lemma detect_opened_once (fs : filesystem) (filepath other : text)
    (st : state) :
  (other = filepath -> exists content, fs filepath = Ok content) ->
  opened_once filepath st ->
  opened_once filepath (snd (detect fs other st)).
Proof.
  intros Hread [Hnone Hcount]. unfold opened_once.
  destruct (detect_cases unicode_lower fs other st)
    as [(l & Hhit & ->) | [(c & Hmiss & Hfs & ->) | (e & Hmiss & Hfs & ->)]];
    simpl.
  - auto.
  - rewrite occurrences_app. destruct (decide (other = filepath)) as [-> | Hne].
    + split.
      * rewrite lookup_insert_eq. discriminate.
      * rewrite (occurrences_absent filepath (opened st)) by auto.
        unfold occurrences. simpl. rewrite bool_decide_eq_true_2 by reflexivity.
        simpl. lia.
    + split.
      * rewrite lookup_insert_ne by assumption. intros Hc.
        rewrite elem_of_app, list_elem_of_singleton.
        intros [Hin | ->]; [exact (Hnone Hc Hin) | congruence].
      * unfold occurrences at 2. simpl.
        rewrite bool_decide_eq_false_2 by assumption. simpl. lia.
  - destruct (decide (other = filepath)) as [-> | Hne].
    + destruct (Hread eq_refl) as [c Hc]. congruence.
    + rewrite occurrences_app. split.
      * intros Hc. rewrite elem_of_app, list_elem_of_singleton.
        intros [Hin | ->]; [exact (Hnone Hc Hin) | congruence].
      * unfold occurrences at 2. simpl.
        rewrite bool_decide_eq_false_2 by assumption. simpl. lia.
Qed.

(** X5: a file that can be read whenever it is asked for is opened at most
    once in the life of the process, whatever the calls and however the
    disk changes between them. *)
Theorem readable_file_opened_once (calls : list (filesystem * text))
    (filepath : text) :
  Forall (fun call : filesystem * text =>
            snd call = filepath -> exists content, fst call filepath = Ok content)
    calls ->
  (occurrences filepath (opened (run unicode_lower calls initial_state))
   <= 1)%nat.
Proof.
  intros Hcalls.
  assert (Hinv : forall st,
             opened_once filepath st ->
             opened_once filepath (run unicode_lower calls st)).
  { induction Hcalls as [| [fs other] later Hcall _ IH]; intros st Hst.
    - exact Hst.
    - simpl. apply IH, detect_opened_once; [exact Hcall | exact Hst]. }
  apply (Hinv initial_state). split.
  - intros _. simpl. apply not_elem_of_nil.
  - simpl. unfold occurrences. simpl. lia.
Qed.

End Calls.

(** ** The sort of the listing *)

Lemma text_compare_antisym (a b : text) :
  text_compare b a = CompOpp (text_compare a b).
Proof.
  revert b. induction a as [| x a IH]; intros [| y b]; simpl; try reflexivity.
  rewrite (N.compare_antisym x y).
  destruct (x ?= y); simpl; [apply IH | reflexivity | reflexivity].
Qed.

Section Sorting.

Variable os : platform.

Lemma key_le_total (x y : file_entry os) :
  key_le x y = false -> key_le y x = true.
Proof.
  unfold key_le.
  rewrite (text_compare_antisym (entry_folder x) (entry_folder y)),
    (text_compare_antisym (entry_name x) (entry_name y)).
  destruct (text_compare (entry_folder x) (entry_folder y));
    destruct (text_compare (entry_name x) (entry_name y));
    simpl; congruence.
Qed.

Lemma insert_entry_perm (x : file_entry os) (l : list (file_entry os)) :
  insert_entry x l ≡ₚ x :: l.
Proof.
  induction l as [| y rest IH]; simpl; [reflexivity |].
  destruct (key_le x y); [reflexivity |].
  rewrite IH. apply Permutation_swap.
Qed.

Lemma sort_files_perm (l : list (file_entry os)) : sort_files l ≡ₚ l.
Proof.
  induction l as [| x rest IH]; simpl; [reflexivity |].
  rewrite insert_entry_perm, IH. reflexivity.
Qed.

Lemma insert_entry_hd (x y : file_entry os) (l : list (file_entry os)) :
  key_le y x = true ->
  HdRel (fun a b => key_le a b = true) y l ->
  HdRel (fun a b => key_le a b = true) y (insert_entry x l).
Proof.
  intros Hyx Hhd. destruct l as [| z rest]; simpl.
  - constructor. exact Hyx.
  - destruct (key_le x z); constructor; [exact Hyx |].
    inversion Hhd; assumption.
Qed.

Lemma insert_entry_sorted (x : file_entry os) (l : list (file_entry os)) :
  Sorted (fun a b => key_le a b = true) l ->
  Sorted (fun a b => key_le a b = true) (insert_entry x l).
Proof.
  induction 1 as [| y rest Hsorted IH Hhd]; simpl.
  - repeat constructor.
  - destruct (key_le x y) eqn:Hxy.
    + repeat constructor; assumption.
    + constructor; [exact IH |].
      apply insert_entry_hd; [apply key_le_total, Hxy | exact Hhd].
Qed.

Lemma sort_files_sorted (l : list (file_entry os)) :
  Sorted (fun a b => key_le a b = true) (sort_files l).
Proof.
  induction l as [| x rest IH]; simpl; [constructor |].
  apply insert_entry_sorted, IH.
Qed.

End Sorting.

(** ** The listing route *)

Lemma flat_map_if {A B : Type} (keep : A -> bool) (f : A -> B) (l : list A) :
  flat_map (fun x => if keep x then [f x] else []) l
  = List.map f (List.filter keep l).
Proof.
  induction l as [| x rest IH]; simpl; [reflexivity |].
  destruct (keep x); simpl; rewrite IH; reflexivity.
Qed.

Section Listing.

Variable unicode_lower : text -> N -> text -> text.
Variable os : platform.

Local Abbreviation detect := (detect_csv_format unicode_lower).
Local Abbreviation runs := (run unicode_lower).
Local Abbreviation is_csv := (fun filename => endswith filename (py ".csv")).

(** What a call returns, when it returns, is a label. *)
Lemma detect_returns (fs : filesystem) (filepath label : text) (st : state) :
  fst (detect fs filepath st) = Ok label ->
  cache_wf st -> is_label label.
Proof.
  destruct (detect_cases unicode_lower fs filepath st)
    as [(l & Hhit & ->) | [(c & _ & _ & ->) | (e & _ & _ & ->)]]; simpl.
  - intros [= <-] Hwf. eapply Hwf, Hhit.
  - intros [= <-] _. apply classify_is_label.
  - unfold error_answer.
    destruct (unicode_encode_error (error_line filepath e)); [discriminate |].
    intros [= <-] _. apply unknown_is_label.
Qed.

Lemma list_file_spec (d : disk os) (root : text) :
  loop_body_spec unicode_lower (list_file unicode_lower d root) (file_text d)
    (fun filename =>
       if is_csv filename then [os_path_join os root filename] else [])
    (fun filename => if is_csv filename then [filename] else []).
Proof.
  intros filename files st. unfold list_file.
  destruct (endswith filename (py ".csv")) eqn:Hcsv.
  - unfold bind, lift.
    destruct (os_stat d (os_path_join os root filename)) as [[size mt] | e].
    + destruct (os_path_relpath os (os_path_join os root filename)
                  (CSV_DIR os)) as [rel | e].
      * pose proof (detect_returns (file_text d)
                      (os_path_join os root filename)) as Hwf.
        specialize (Hwf) with (st := st).
        destruct (detect (file_text d) (os_path_join os root filename) st)
          as [answer st1] eqn:Hd.
        cbn [fst] in Hwf.
        assert (Hrun : st1
                       = runs (calls_on (file_text d)
                                 [os_path_join os root filename]) st).
        { change (runs (calls_on (file_text d)
                          [os_path_join os root filename]) st)
            with (snd (detect (file_text d)
                         (os_path_join os root filename) st)).
          rewrite Hd. reflexivity. }
        exists [os_path_join os root filename]. cbn [fst snd].
        destruct answer as [label | printing];
          [| split; [exact Hrun | split; [auto |]]; intros result [=]].
        destruct (strftime_local os mt) as [date | e]; unfold ret;
          cbn [fst snd].
        -- split; [exact Hrun | split; [auto |]].
           intros result [= <-]. split; [reflexivity |].
           eexists. split; [reflexivity |]. cbn [List.map entry_name].
           split; [reflexivity | split].
           ++ constructor; [| constructor]. split; cbn [entry_name entry_folder].
              ** exact Hcsv.
              ** destruct (truthy (os_path_dirname os rel)) eqn:Ht.
                 --- destruct (os_path_dirname os rel); discriminate.
                 --- discriminate.
           ++ intros Hst. constructor; [| constructor].
              cbn [entry_format]. auto.
        -- split; [exact Hrun | split; [auto |]]. intros result [=].
      * exists []. cbn [fst snd]. split; [reflexivity | split].
        -- intros filepath Hin. apply elem_of_nil in Hin. contradiction.
        -- intros result [=].
    + exists []. cbn [fst snd]. split; [reflexivity | split].
      * intros filepath Hin. apply elem_of_nil in Hin. contradiction.
      * intros result [=].
  - exists []. unfold ret. cbn [fst snd]. split; [reflexivity | split].
    + auto.
    + intros result [= <-]. split; [reflexivity |].
      exists []. rewrite app_nil_r. repeat split; constructor.
Qed.

Lemma for_each_spec {A : Type}
    (body : A -> list (file_entry os) -> M (list (file_entry os)))
    (fs : filesystem) (paths names : A -> list text) :
  loop_body_spec unicode_lower body fs paths names ->
  loop_body_spec unicode_lower (fun items => for_each items body) fs
    (flat_map paths) (flat_map names).
Proof.
  intros Hbody items. induction items as [| x rest IH]; intros files st.
  - exists []. unfold for_each, ret. cbn [fst snd].
    split; [reflexivity | split; [auto |]].
    intros result [= <-]. split; [reflexivity |].
    exists []. rewrite app_nil_r. repeat split; constructor.
  - cbn [for_each flat_map]. unfold bind.
    destruct (Hbody x files st) as (called1 & Hst1 & Hsub1 & Hok1).
    destruct (body x files st) as [[r1 | e] st1]; cbn [fst snd] in *.
    + destruct (IH r1 st1) as (called2 & Hst2 & Hsub2 & Hok2).
      exists (called1 ++ called2). split; [| split].
      * rewrite Hst2, Hst1. unfold calls_on.
        rewrite List.map_app, run_app. reflexivity.
      * intros filepath. rewrite !elem_of_app.
        intros [Hin | Hin]; [left; apply Hsub1, Hin | right; apply Hsub2, Hin].
      * intros result Hresult.
        destruct (Hok1 r1 eq_refl) as (-> & new1 & -> & Hn1 & Hw1 & Hl1).
        destruct (Hok2 result Hresult)
          as (-> & new2 & -> & Hn2 & Hw2 & Hl2).
        split; [reflexivity |]. exists (new1 ++ new2).
        rewrite app_assoc, List.map_app, Hn1, Hn2.
        split; [reflexivity | split; [reflexivity | split]].
        -- apply Forall_app. auto.
        -- intros Hwf. apply Forall_app. split; [auto |].
           apply Hl2. rewrite Hst1. apply run_wf, Hwf.
    + exists called1. split; [exact Hst1 | split].
      * intros filepath Hin. rewrite elem_of_app. left. apply Hsub1, Hin.
      * intros result [=].
Qed.

Lemma list_directory_spec (d : disk os) :
  loop_body_spec unicode_lower (list_directory unicode_lower d) (file_text d)
    (fun triple =>
       List.map (os_path_join os (fst (fst triple)))
         (List.filter is_csv (snd triple)))
    (fun triple => List.filter is_csv (snd triple)).
Proof.
  intros triple files st. unfold list_directory.
  pose proof (for_each_spec _ _ _ _ (list_file_spec d (fst (fst triple)))
                (snd triple) files st) as Hspec.
  cbv beta in Hspec. rewrite !flat_map_if, List.map_id in Hspec. exact Hspec.
Qed.

(** What a request for the listing does and answers. *)
Lemma list_csv_files_spec (d : disk os) (st : state) :
  exists called response,
    list_csv_files unicode_lower d st
    = (Ok response, runs (calls_on (file_text d) called) st)
    ∧ (forall filepath, filepath ∈ called -> filepath ∈ csv_paths d)
    ∧ forall count files,
        response = Listed count files ->
        called = csv_paths d
        ∧ count = length files
        ∧ exists gathered,
            files = sort_files gathered
            ∧ List.map entry_name gathered = csv_names d
            ∧ Forall listed_well gathered
            ∧ (cache_wf st ->
               Forall (fun e => is_label (entry_format e)) gathered).
Proof.
  unfold list_csv_files, try_except.
  destruct (os_path_exists d (CSV_DIR os)); cbn [negb].
  - unfold bind.
    destruct (for_each_spec _ _ _ _ (list_directory_spec d)
                (os_walk d (CSV_DIR os)) [] st)
      as (called & Hst & Hsub & Hok).
    cbv beta in Hst, Hok.
    destruct (for_each (os_walk d (CSV_DIR os))
                (list_directory unicode_lower d) [] st)
      as [[gathered | e] st1]; cbn [fst snd] in *; subst st1.
    + exists called. eexists. split; [reflexivity | split; [exact Hsub |]].
      intros count files [= <- <-].
      destruct (Hok gathered eq_refl) as (-> & new & -> & Hnames & Hwell & Hl).
      split; [reflexivity | split; [reflexivity |]].
      exists new. auto.
    + exists called. eexists. split; [reflexivity | split; [exact Hsub |]].
      intros count files [=].
  - exists []. eexists. split; [reflexivity | split].
    + intros filepath Hin. apply elem_of_nil in Hin. contradiction.
    + intros count files [=].
Qed.

Lemma run_opened_new (fs : filesystem) (paths : list text) (st : state) :
  exists new,
    opened (runs (calls_on fs paths) st) = opened st ++ new
    ∧ forall filepath,
        filepath ∈ new ->
        filepath ∈ paths ∧ format_cache st !! filepath = None.
Proof.
  revert st. induction paths as [| other later IH]; intros st.
  - exists []. simpl. rewrite app_nil_r. split; [reflexivity |].
    intros filepath Hin. apply elem_of_nil in Hin. contradiction.
  - cbn [calls_on List.map run]. fold (calls_on fs later).
    destruct (IH (snd (detect fs other st))) as (new & Hnew & Hin).
    assert (Hearlier : forall filepath,
               format_cache (snd (detect fs other st)) !! filepath = None ->
               format_cache st !! filepath = None).
    { intros filepath Hnone.
      destruct (format_cache st !! filepath) as [l |] eqn:Hc; [| reflexivity].
      rewrite (detect_keeps unicode_lower fs other st filepath l Hc) in Hnone.
      discriminate. }
    destruct (detect_cases unicode_lower fs other st)
      as [(l & Hhit & Hd) | [(c & Hmiss & Hfs & Hd) | (e & Hmiss & Hfs & Hd)]];
      rewrite Hd in Hnew, Hin, Hearlier |- *; cbn [snd] in *.
    + exists new. split; [exact Hnew |].
      intros filepath Hf. destruct (Hin filepath Hf) as [H1 H2].
      rewrite elem_of_cons. auto.
    + exists (other :: new). split.
      * rewrite Hnew. simpl. rewrite <- app_assoc. reflexivity.
      * intros filepath. rewrite !elem_of_cons. intros [-> | Hf]; [auto |].
        destruct (Hin filepath Hf) as [H1 H2]. auto.
    + exists (other :: new). split.
      * rewrite Hnew. simpl. rewrite <- app_assoc. reflexivity.
      * intros filepath. rewrite !elem_of_cons. intros [-> | Hf]; [auto |].
        destruct (Hin filepath Hf) as [H1 H2]. auto.
Qed.

Lemma run_caches_readable (fs : filesystem) (paths : list text) (st : state)
    (filepath content : text) :
  filepath ∈ paths ->
  fs filepath = Ok content ->
  is_Some (format_cache (runs (calls_on fs paths) st) !! filepath).
Proof.
  intros Hin Hfs. revert st.
  induction paths as [| other later IH]; intros st.
  - apply elem_of_nil in Hin. contradiction.
  - cbn [calls_on List.map run]. fold (calls_on fs later).
    apply elem_of_cons in Hin as [<- | Hin]; [| apply IH, Hin].
    destruct (detect_cases unicode_lower fs filepath st)
      as [(l & Hhit & ->) | [(c & Hmiss & _ & ->) | (e & _ & He & _)]];
      cbn [snd].
    + exists l. apply run_keeps, Hhit.
    + eexists. apply run_keeps. simpl. apply lookup_insert_eq.
    + congruence.
Qed.

Lemma list_file_agree (d : disk os) (root filename : text)
    (files : list (file_entry os)) (st st' : state) :
  agree detect (file_text d) st st' ->
  fst (list_file unicode_lower d root filename files st)
  = fst (list_file unicode_lower d root filename files st')
  ∧ agree detect (file_text d)
      (snd (list_file unicode_lower d root filename files st))
      (snd (list_file unicode_lower d root filename files st')).
Proof.
  intros Hagree. unfold list_file.
  destruct (endswith filename (py ".csv")); [| auto].
  unfold bind, lift.
  destruct (os_stat d (os_path_join os root filename)) as [[size mt] | e];
    [| auto].
  destruct (os_path_relpath os (os_path_join os root filename) (CSV_DIR os))
    as [rel | e]; [| auto].
  pose proof (Hagree (os_path_join os root filename)) as Hsame.
  assert (Hnext : agree detect (file_text d)
                    (snd (detect (file_text d)
                            (os_path_join os root filename) st))
                    (snd (detect (file_text d)
                            (os_path_join os root filename) st'))).
  { intros filepath. rewrite !detect_answer_step. apply Hagree. }
  destruct (detect (file_text d) (os_path_join os root filename) st)
    as [answer st1].
  destruct (detect (file_text d) (os_path_join os root filename) st')
    as [answer' st1'].
  cbn [fst snd] in *. subst answer'.
  destruct answer as [label | printing]; [| auto].
  destruct (strftime_local os mt); auto.
Qed.

Lemma for_each_agree {A B : Type} (fs : filesystem) (items : list A)
    (body : A -> B -> M B) :
  (forall x acc st st',
      agree detect fs st st' ->
      fst (body x acc st) = fst (body x acc st')
      ∧ agree detect fs (snd (body x acc st)) (snd (body x acc st'))) ->
  forall acc st st',
    agree detect fs st st' ->
    fst (for_each items body acc st) = fst (for_each items body acc st')
    ∧ agree detect fs (snd (for_each items body acc st))
        (snd (for_each items body acc st')).
Proof.
  intros Hbody. induction items as [| x rest IH]; intros acc st st' Hagree.
  - auto.
  - cbn [for_each]. unfold bind.
    destruct (Hbody x acc st st' Hagree) as [Hfst Hsnd].
    destruct (body x acc st) as [[r | e] st1];
      destruct (body x acc st') as [[r' | e'] st1'];
      cbn [fst snd] in *; try discriminate.
    + injection Hfst as <-. apply IH, Hsnd.
    + auto.
Qed.

Lemma list_csv_files_agree (d : disk os) (st st' : state) :
  agree detect (file_text d) st st' ->
  fst (list_csv_files unicode_lower d st)
  = fst (list_csv_files unicode_lower d st').
Proof.
  intros Hagree. unfold list_csv_files, try_except.
  destruct (os_path_exists d (CSV_DIR os)); cbn [negb]; [| reflexivity].
  unfold bind.
  assert (Hloop := for_each_agree (file_text d) (os_walk d (CSV_DIR os))
                     (list_directory unicode_lower d)).
  destruct (Hloop) with (acc := @nil (file_entry os)) (st := st) (st' := st')
    as [Hfst _].
  - intros triple acc s s' Hs. unfold list_directory.
    apply for_each_agree; [| exact Hs].
    intros filename acc' t t' Ht. apply list_file_agree, Ht.
  - exact Hagree.
  - destruct (for_each (os_walk d (CSV_DIR os))
                (list_directory unicode_lower d) [] st) as [[r | e] st1];
      destruct (for_each (os_walk d (CSV_DIR os))
                  (list_directory unicode_lower d) [] st') as [[r' | e'] st1'];
      unfold ret; cbn [fst snd] in *; try discriminate;
      injection Hfst as <-; reflexivity.
Qed.

(** X9: a successful listing is sorted by folder and then by name (in the
    order of Python strings), and its [count] is the number of its
    entries. *)
Theorem listing_is_sorted (d : disk os) (st : state) (count : nat)
    (files : list (file_entry os)) :
  fst (list_csv_files unicode_lower d st) = Ok (Listed count files) ->
  Sorted (fun x y => key_le x y = true) files ∧ count = length files.
Proof.
  intros Hlisted.
  destruct (list_csv_files_spec d st) as (called & response & Hrun & _ & Hok).
  rewrite Hrun in Hlisted. injection Hlisted as ->.
  destruct (Hok count files eq_refl) as (_ & -> & gathered & -> & _).
  split; [apply sort_files_sorted | reflexivity].
Qed.

(** X10: a successful listing has one entry for each file name of the walk
    that ends in [.csv] (lower case), and no other entry: the names of its
    entries are those names in some order, its [count] is their number,
    and no entry has an empty folder. *)
Theorem listing_is_complete (d : disk os) (st : state) (count : nat)
    (files : list (file_entry os)) :
  fst (list_csv_files unicode_lower d st) = Ok (Listed count files) ->
  List.map entry_name files ≡ₚ csv_names d
  ∧ count = length (csv_names d)
  ∧ Forall listed_well files.
Proof.
  intros Hlisted.
  destruct (list_csv_files_spec d st) as (called & response & Hrun & _ & Hok).
  rewrite Hrun in Hlisted. injection Hlisted as ->.
  destruct (Hok count files eq_refl)
    as (_ & -> & gathered & -> & Hnames & Hwell & _).
  pose proof (sort_files_perm os gathered) as Hperm.
  split; [| split].
  - rewrite <- Hnames. apply Permutation_map, Hperm.
  - rewrite <- Hnames, length_map. apply Permutation_length, Hperm.
  - eapply Permutation_Forall; [symmetry; exact Hperm | exact Hwell].
Qed.

(** X11: in every state the process can reach, the [format] of every entry
    of a successful listing is one of the four labels. *)
Theorem listing_formats_are_labels (calls : list (filesystem * text))
    (d : disk os) (count : nat) (files : list (file_entry os)) :
  fst (list_csv_files unicode_lower d (runs calls initial_state))
  = Ok (Listed count files) ->
  Forall (fun e => is_label (entry_format e)) files.
Proof.
  intros Hlisted.
  destruct (list_csv_files_spec d (runs calls initial_state))
    as (called & response & Hrun & _ & Hok).
  rewrite Hrun in Hlisted. injection Hlisted as ->.
  destruct (Hok count files eq_refl)
    as (_ & -> & gathered & -> & _ & _ & Hlabels).
  eapply Permutation_Forall; [symmetry; apply sort_files_perm |].
  apply Hlabels, run_wf, initial_wf.
Qed.

(** X12: a request for the listing never raises, whatever the disk does
    (a missing directory, a file that vanishes before [os.stat], a
    timestamp that cannot be formatted); and it never removes or changes
    an entry of the cache, also when it fails half way. *)
Theorem listing_never_raises_nor_evicts (d : disk os) (st : state) :
  (exists response, fst (list_csv_files unicode_lower d st) = Ok response)
  ∧ forall filepath label,
      format_cache st !! filepath = Some label ->
      format_cache (snd (list_csv_files unicode_lower d st)) !! filepath
      = Some label.
Proof.
  destruct (list_csv_files_spec d st) as (called & response & Hrun & _).
  rewrite Hrun. cbn [fst snd]. split; [eauto |].
  intros filepath label Hc. apply run_keeps, Hc.
Qed.

(** X13: on an unchanged disk a second request for the listing gets the
    answer of the first, entry by entry (or the same failure). *)
Theorem listing_twice_same_answer (d : disk os) (st : state) :
  fst (list_csv_files unicode_lower d
         (snd (list_csv_files unicode_lower d st)))
  = fst (list_csv_files unicode_lower d st).
Proof.
  symmetry. apply list_csv_files_agree.
  destruct (list_csv_files_spec d st) as (called & response & Hrun & _).
  rewrite Hrun. cbn [snd]. intros filepath. symmetry. apply run_answer.
Qed.

(** X14: after a successful listing, a second request on the unchanged
    disk opens only files that cannot be read: every header that could be
    read comes from the cache. *)
Theorem second_listing_reads_no_header (d : disk os) (st : state)
    (count : nat) (files : list (file_entry os)) :
  fst (list_csv_files unicode_lower d st) = Ok (Listed count files) ->
  exists new,
    opened (snd (list_csv_files unicode_lower d
                   (snd (list_csv_files unicode_lower d st))))
    = opened (snd (list_csv_files unicode_lower d st)) ++ new
    ∧ forall filepath,
        filepath ∈ new -> exists e, file_text d filepath = Raise e.
Proof.
  intros Hlisted.
  destruct (list_csv_files_spec d st) as (called & response & Hrun & _ & Hok).
  rewrite Hrun in Hlisted |- *. cbn [fst snd] in *.
  injection Hlisted as ->.
  destruct (Hok count files eq_refl) as (-> & _).
  destruct (list_csv_files_spec d
              (runs (calls_on (file_text d) (csv_paths d)) st))
    as (called2 & response2 & Hrun2 & Hsub2 & _).
  rewrite Hrun2. cbn [snd].
  destruct (run_opened_new (file_text d) called2
              (runs (calls_on (file_text d) (csv_paths d)) st))
    as (new & Hnew & Hin).
  exists new. split; [exact Hnew |].
  intros filepath Hf. destruct (Hin filepath Hf) as [Hcalled Hnone].
  destruct (file_text d filepath) as [content | e] eqn:Hfs; [| eauto].
  destruct (run_caches_readable (file_text d) (csv_paths d) st filepath
              content (Hsub2 filepath Hcalled) Hfs) as [l Hl].
  congruence.
Qed.

End Listing.

(** ** The further theorems at concrete files *)

Lemma rows_do_not_matter_witness :
  fst (detect_csv_format ascii_only_lower
         (disk_of (py "date,time,speed" ++ [CR; LF] ++ py "1,2,3")) ride
         initial_state)
  = fst (detect_csv_format ascii_only_lower
           (disk_of (py "date,time,speed" ++ [])) other_ride initial_state).
Proof.
  apply (rows_do_not_matter ascii_only_lower
           (disk_of (py "date,time,speed" ++ [CR; LF] ++ py "1,2,3"))
           (disk_of (py "date,time,speed" ++ [])) ride other_ride
           (py "date,time,speed") ([CR; LF] ++ py "1,2,3") []
           initial_state initial_state eq_refl eq_refl eq_refl eq_refl).
  - unfold no_newline. holds.
  - right. exists CR, (LF :: py "1,2,3"). auto.
  - left. reflexivity.
Defined.

Lemma column_order_does_not_matter_witness :
  fst (detect_csv_format ascii_only_lower (disk_of (py "date,time,speed"))
         ride initial_state)
  = fst (detect_csv_format ascii_only_lower
           (disk_of (py "time, speed,date,time")) other_ride initial_state).
Proof.
  apply (column_order_does_not_matter ascii_only_lower
           (disk_of (py "date,time,speed"))
           (disk_of (py "time, speed,date,time")) ride other_ride
           (py "date,time,speed") (py "time, speed,date,time")
           initial_state initial_state eq_refl eq_refl eq_refl eq_refl).
  intros field.
  replace (columns_original (strip (readline (py "date,time,speed"))))
    with [py "date"; py "time"; py "speed"] by (vm_compute; reflexivity).
  replace (columns_original (strip (readline (py "time, speed,date,time"))))
    with [py "time"; py "speed"; py "date"; py "time"]
    by (vm_compute; reflexivity).
  rewrite !elem_of_cons, !elem_of_nil. tauto.
Defined.

Lemma readable_file_opened_once_witness :
  (occurrences ride
     (opened (run ascii_only_lower
                [(disk_of eucworld_file, ride); (disk_of wheellog_file, ride);
                 (no_files, other_ride); (disk_of eucworld_file, ride)]
                initial_state))
   <= 1)%nat.
Proof.
  apply (readable_file_opened_once ascii_only_lower
           [(disk_of eucworld_file, ride); (disk_of wheellog_file, ride);
            (no_files, other_ride); (disk_of eucworld_file, ride)] ride).
  repeat constructor; cbn [fst snd]; intros Hsame;
    try (vm_compute in Hsame; discriminate); eexists; reflexivity.
Defined.

Lemma traversal_is_rejected_witness :
  get_csv_file (py "csv") (fun directory filename => Sent (directory, filename))
    (py "2024/../../server.py")
  = JsonError 400 (py "Invalid filename").
Proof.
  apply (traversal_is_rejected (py "csv")
           (fun directory filename => Sent (directory, filename))
           (py "2024/../../server.py")).
  left. holds.
Defined.

Lemma served_file_is_inside_witness :
  py ".." ∉ split slash (py "2024/ride.csv").
Proof.
  destruct (served_file_is_inside (py "csv")
              (fun directory filename => Sent (directory, filename))
              (py "2024/ride.csv")) as [Hserved _].
  destruct (Hserved (py "csv", py "2024/ride.csv") eq_refl)
    as (_ & Hinside & _).
  exact Hinside.
Defined.

Lemma no_cache_for_scripts_styles_pages_witness :
  add_no_cache_headers (fun response : option text * list (text * text) =>
                          fst response)
    (fun name value response => (fst response, (name, value) :: snd response))
    (Some (py "text/html; charset=utf-8"), [])
  = (Some (py "text/html; charset=utf-8"),
     [(py "Cache-Control", py "no-cache")]).
Proof.
  destruct (no_cache_for_scripts_styles_pages
              (fun response : option text * list (text * text) =>
                 fst response)
              (fun name value response =>
                 (fst response, (name, value) :: snd response))
              (Some (py "text/html; charset=utf-8"), [])) as [Hset _].
  apply (Hset (py "html") (py "text/") (py "; charset=utf-8")).
  - rewrite !elem_of_cons. auto.
  - reflexivity.
Defined.

Lemma listing_is_sorted_witness :
  Sorted (fun x y => key_le x y = true)
    (files_of (fst (list_csv_files ascii_only_lower example_disk
                      initial_state)))
  ∧ count_of (fst (list_csv_files ascii_only_lower example_disk
                     initial_state))
    = length (files_of (fst (list_csv_files ascii_only_lower example_disk
                               initial_state))).
Proof.
  apply (listing_is_sorted ascii_only_lower example_platform example_disk
           initial_state).
  vm_compute. reflexivity.
Defined.

Lemma listing_is_complete_witness :
  List.map entry_name
    (files_of (fst (list_csv_files ascii_only_lower example_disk
                      initial_state)))
  ≡ₚ [py "b.csv"; py "a.csv"; py "ride.csv"]
  ∧ count_of (fst (list_csv_files ascii_only_lower example_disk
                     initial_state))
    = 3%nat.
Proof.
  destruct (listing_is_complete ascii_only_lower example_platform
              example_disk initial_state
              (count_of (fst (list_csv_files ascii_only_lower example_disk
                                initial_state)))
              (files_of (fst (list_csv_files ascii_only_lower example_disk
                                initial_state))))
    as (Hnames & Hcount & _).
  - vm_compute. reflexivity.
  - split; [exact Hnames | exact Hcount].
Defined.

Lemma listing_formats_are_labels_witness :
  Forall (fun e => is_label (entry_format e))
    (files_of (fst (list_csv_files ascii_only_lower example_disk
                      (run ascii_only_lower [(no_files, ride)]
                         initial_state)))).
Proof.
  apply (listing_formats_are_labels ascii_only_lower example_platform
           [(no_files, ride)] example_disk
           (count_of (fst (list_csv_files ascii_only_lower example_disk
                             (run ascii_only_lower [(no_files, ride)]
                                initial_state))))).
  vm_compute. reflexivity.
Defined.

Lemma second_listing_reads_no_header_witness :
  exists new,
    opened (snd (list_csv_files ascii_only_lower example_disk
                   (snd (list_csv_files ascii_only_lower example_disk
                           initial_state))))
    = opened (snd (list_csv_files ascii_only_lower example_disk
                     initial_state)) ++ new
    ∧ forall filepath,
        filepath ∈ new -> exists e, file_text example_disk filepath = Raise e.
Proof.
  apply (second_listing_reads_no_header ascii_only_lower example_platform
           example_disk initial_state
           (count_of (fst (list_csv_files ascii_only_lower example_disk
                             initial_state)))
           (files_of (fst (list_csv_files ascii_only_lower example_disk
                             initial_state)))).
  vm_compute. reflexivity.
Defined.

Lemma padding_does_not_matter_witness :
  fst (detect_csv_format ascii_only_lower
         (disk_of (join comma [py "date"; py "time"; py "speed"] ++ []))
         ride initial_state)
  = fst (detect_csv_format ascii_only_lower
           (disk_of (join comma [py " date "; py "time  "; 9 :: py "speed"]
                     ++ LF :: py "1,2,3"))
           other_ride initial_state).
Proof.
  apply (padding_does_not_matter ascii_only_lower
           (disk_of (join comma [py "date"; py "time"; py "speed"] ++ []))
           (disk_of (join comma [py " date "; py "time  "; 9 :: py "speed"]
                     ++ LF :: py "1,2,3"))
           ride other_ride [] (LF :: py "1,2,3")
           [py "date"; py "time"; py "speed"]
           [py " date "; py "time  "; 9 :: py "speed"]
           initial_state initial_state eq_refl eq_refl eq_refl eq_refl).
  - discriminate.
  - discriminate.
  - unfold plain_field. holds.
  - unfold plain_field. holds.
  - left. reflexivity.
  - right. exists LF, (py "1,2,3"). auto.
  - vm_compute. reflexivity.
Defined.
